(** * CDNService: request shaping of the CDN / object-storage gateway

    A shallow embedding of [CDNService] (the class of src/unnamed/part_000):
    its five operations written in a small state-and-error monad over an
    explicit world (clock reads, the requests sent to the cloud SDK, the
    logger), with the SDK's answers and the clock taken from an environment.
    The theorems are about the requests each operation builds, the value it
    resolves to and the error it rejects with. *)

From Stdlib Require Import ZArith List String Ascii Bool Lia.
From Stdlib Require Import DecimalString DecimalPos DecimalZ.
From Stdlib Require Strings.Byte.
Import ListNotations.

Local Open Scope string_scope.
Local Open Scope Z_scope.

(** ** The JavaScript runtime primitives the service calls *)

Module JS.

(** A value read out of the configuration: a string, or [undefined]
    ([None]) when the variable is not set. *)
Definition value := option string.

(** Interpolation of such a value in a template literal. *)
Definition interp (v : value) : string :=
  match v with
  | Some s => s
  | None => "undefined"
  end.

(** [String(n)] for an integral number (the clock's epoch milliseconds):
    its decimal digits, with a leading minus sign below zero. *)
Definition Number_toString (n : Z) : string :=
  NilZero.string_of_int (Z.to_int n).

(** [Array.prototype.join]. *)
Definition join (sep : string) (l : list string) : string :=
  String.concat sep l.

(** *** Dates: a [Date] is its time value, milliseconds since the epoch. *)

Definition msPerDay : Z := 86400000.

(** The largest time value a [Date] holds, in either direction. *)
Definition maxTime : Z := 8640000000000000.

Definition time_value (t : Z) : Prop := - maxTime <= t <= maxTime.

Definition Day (t : Z) : Z := t / msPerDay.
Definition TimeWithinDay (t : Z) : Z := t mod msPerDay.

Definition HourFromTime (t : Z) : Z := TimeWithinDay t / 3600000.
Definition MinFromTime (t : Z) : Z := (TimeWithinDay t / 60000) mod 60.
Definition SecFromTime (t : Z) : Z := (TimeWithinDay t / 1000) mod 60.
Definition msFromTime (t : Z) : Z := TimeWithinDay t mod 1000.

(** The proleptic Gregorian date of a day number (days since 1970-01-01),
    by counting in 400-year eras that start on a 1st of March. *)
Record civil := { cyear : Z; cmonth : Z; cday : Z }.

Definition civil_from_days (z : Z) : civil :=
  let z := z + 719468 in
  let era := z / 146097 in
  let doe := z mod 146097 in
  let yoe := (doe - doe / 1460 + doe / 36524 - doe / 146096) / 365 in
  let doy := doe - (365 * yoe + yoe / 4 - yoe / 100) in
  let mp := (5 * doy + 2) / 153 in
  let d := doy - (153 * mp + 2) / 5 + 1 in
  let m := if mp <? 10 then mp + 3 else mp - 9 in
  {| cyear := (if m <=? 2 then 1 else 0) + yoe + era * 400;
     cmonth := m;
     cday := d |}.

Definition YearFromTime (t : Z) : Z := cyear (civil_from_days (Day t)).
(** Months are numbered from 1 here, as they are printed. *)
Definition MonthFromTime (t : Z) : Z := cmonth (civil_from_days (Day t)).
Definition DateFromTime (t : Z) : Z := cday (civil_from_days (Day t)).

Definition digit (n : Z) : ascii :=
  ascii_of_N (48 + Z.to_N (n mod 10)).

(** The [k] low decimal digits of [n], most significant first. *)
Fixpoint pad (k : nat) (n : Z) : string :=
  match k with
  | O => EmptyString
  | S k' => pad k' (n / 10) ++ String (digit n) EmptyString
  end.

(** Years 0 to 9999 print as four digits, the others with a sign and six. *)
Definition year_string (y : Z) : string :=
  if (0 <=? y) && (y <=? 9999) then pad 4 y
  else (if y <? 0 then "-" else "+") ++ pad 6 (Z.abs y).

(** [Date.prototype.toISOString]: YYYY-MM-DDTHH:mm:ss.sssZ, in UTC. *)
Definition toISOString (t : Z) : string :=
  year_string (YearFromTime t) ++ "-" ++ pad 2 (MonthFromTime t) ++ "-" ++
  pad 2 (DateFromTime t) ++ "T" ++ pad 2 (HourFromTime t) ++ ":" ++
  pad 2 (MinFromTime t) ++ ":" ++ pad 2 (SecFromTime t) ++ "." ++
  pad 3 (msFromTime t) ++ "Z".

(** *** Reading such a timestamp back

    What [Date.parse] computes on the two shapes [toISOString] prints, and
    on nothing else: the fields are read at their fixed places, checked
    against their ranges and put back together into a time value. *)

Definition is_digit (c : ascii) : bool :=
  let n := N_of_ascii c in ((48 <=? n) && (n <=? 57))%N.

Definition digit_value (c : ascii) : Z := Z.of_N (N_of_ascii c) - 48.

(** Exactly [k] decimal digits off the front of [s], onto [acc]. *)
Fixpoint read_digits (k : nat) (acc : Z) (s : string) : option (Z * string) :=
  match k with
  | O => Some (acc, s)
  | S k' =>
      match s with
      | String c s' =>
          if is_digit c then read_digits k' (10 * acc + digit_value c) s'
          else None
      | EmptyString => None
      end
  end.

Definition read_char (c : ascii) (s : string) : option string :=
  match s with
  | String c' s' => if Ascii.eqb c' c then Some s' else None
  | EmptyString => None
  end.

(** Four digits, or a sign and six; minus zero is not a year. *)
Definition read_year (s : string) : option (Z * string) :=
  match s with
  | String c s' =>
      if Ascii.eqb c "+" then read_digits 6 0 s'
      else if Ascii.eqb c "-" then
        match read_digits 6 0 s' with
        | Some (y, rest) => if y =? 0 then None else Some (- y, rest)
        | None => None
        end
      else read_digits 4 0 s
  | EmptyString => None
  end.

Definition is_leap (y : Z) : bool :=
  ((y mod 4 =? 0) && negb (y mod 100 =? 0)) || (y mod 400 =? 0).

Definition DaysInMonth (y m : Z) : Z :=
  if m =? 2 then (if is_leap y then 29 else 28)
  else if (m =? 4) || (m =? 6) || (m =? 9) || (m =? 11) then 30
  else 31.

(** The day number of a date: the inverse of [civil_from_days]. *)
Definition days_from_civil (y m d : Z) : Z :=
  let y := if m <=? 2 then y - 1 else y in
  let era := y / 400 in
  let yoe := y mod 400 in
  let doy := (153 * (if 2 <? m then m - 3 else m + 9) + 2) / 5 + d - 1 in
  let doe := yoe * 365 + yoe / 4 - yoe / 100 + doy in
  era * 146097 + doe - 719468.

Definition MakeTime (h m s ms : Z) : Z :=
  h * 3600000 + m * 60000 + s * 1000 + ms.

Definition MakeDate (day time : Z) : Z := day * msPerDay + time.

Definition and_then {A B} (o : option A) (k : A -> option B) : option B :=
  match o with
  | Some a => k a
  | None => None
  end.

Definition Date_parse (s : string) : option Z :=
  and_then (read_year s) (fun '(y, s) =>
  and_then (read_char "-" s) (fun s =>
  and_then (read_digits 2 0 s) (fun '(m, s) =>
  and_then (read_char "-" s) (fun s =>
  and_then (read_digits 2 0 s) (fun '(d, s) =>
  and_then (read_char "T" s) (fun s =>
  and_then (read_digits 2 0 s) (fun '(h, s) =>
  and_then (read_char ":" s) (fun s =>
  and_then (read_digits 2 0 s) (fun '(mi, s) =>
  and_then (read_char ":" s) (fun s =>
  and_then (read_digits 2 0 s) (fun '(sec, s) =>
  and_then (read_char "." s) (fun s =>
  and_then (read_digits 3 0 s) (fun '(ms, s) =>
  and_then (read_char "Z" s) (fun s =>
    let t := MakeDate (days_from_civil y m d) (MakeTime h mi sec ms) in
    if (match s with EmptyString => true | _ => false end)
       && (1 <=? m) && (m <=? 12) && (1 <=? d) && (d <=? DaysInMonth y m)
       && (h <=? 23) && (mi <=? 59) && (sec <=? 59)
       && (- maxTime <=? t) && (t <=? maxTime)
    then Some t
    else None)))))))))))))).

End JS.

(** ** Data model *)

(** A thrown value. The service never looks inside one. *)
Record Error := { name : string; message : string }.

Inductive Quality := low | medium | high | lossless.
Inductive Format := mp3 | aac | flac.

(** The string literal each member of the two unions stands for. *)
Definition Quality_str (q : Quality) : string :=
  match q with
  | low => "low" | medium => "medium" | high => "high" | lossless => "lossless"
  end.

Definition Format_str (f : Format) : string :=
  match f with
  | mp3 => "mp3" | aac => "aac" | flac => "flac"
  end.

(** [StreamingOptions]: every property is optional. [bitrate] is declared
    and never read. *)
Record StreamingOptions := {
  quality : option Quality;
  format : option Format;
  bitrate : option Z
}.

(** The literal [{}], the default of an omitted [options] argument. *)
Definition no_options : StreamingOptions :=
  {| quality := None; format := None; bitrate := None |}.

Module CDNUploadResult.
Record t := { url : string; cdnUrl : string; key : string; etag : string }.
End CDNUploadResult.

(** *** The request and response shapes of the cloud SDK *)

Module PutObjectRequest.
Record t := {
  Bucket : JS.value;
  Key : string;
  Body : list Byte.byte;
  ContentType : string;
  CacheControl : string;
  Metadata : list (string * string)
}.
End PutObjectRequest.

Module SendData.
Record t := { Location : string; ETag : string; Bucket : string; Key : string }.
End SendData.

Module SignedUrlParams.
Record t := {
  Bucket : JS.value;
  Key : string;
  Expires : Z;
  ResponseContentType : string;
  ResponseCacheControl : string
}.
End SignedUrlParams.

Module Invalidation.
Record Paths := { Quantity : Z; Items : list string }.
Record Batch := { CallerReference : string; paths : Paths }.
Record Request := { DistributionId : JS.value; InvalidationBatch : Batch }.
(** What the control plane answers once the job is accepted. *)
Record Result := { Id : string; Status : string }.
End Invalidation.

Module MetricStatistics.
Record Dimension := { Name : string; Value : JS.value }.
Record Input := {
  MetricName : string;
  Namespace : string;
  StartTime : Z;
  EndTime : Z;
  Period : Z;
  Statistics : list string;
  Dimensions : list Dimension
}.
End MetricStatistics.

(** ** The world the service acts on *)

(** What the service does to the outside, in the order it does it. *)
Inductive Event :=
| S3Upload (params : PutObjectRequest.t)
| S3GetSignedUrl (operation : string) (params : SignedUrlParams.t)
| CreateInvalidation (params : Invalidation.Request)
| GetMetricStatistics (params : MetricStatistics.Input)
| LoggerLog (msg : string)
| LoggerError (msg : string) (error : Error).

Record World := {
  reads : nat;          (* how many times the clock has been read *)
  trace : list Event    (* the calls made so far, oldest first *)
}.

(** A list with one more element at its end. *)
Definition snoc {A} (l : list A) (x : A) : list A := (l ++ [x])%list.

Definition emit (e : Event) (w : World) : World :=
  {| reads := reads w; trace := snoc (trace w) e |}.

(** The environment: the clock, as the sequence of its successive readings,
    and the SDK, each call answering with a result or a thrown error that
    may depend on everything done before. [Metrics] is the metrics
    backend's answer, which the service hands on untouched. *)
Record Env (Metrics : Type) := {
  clock : nat -> Z;
  s3_upload : list Event -> PutObjectRequest.t -> Error + SendData.t;
  s3_getSignedUrl :
    list Event -> string -> SignedUrlParams.t -> Error + string;
  cloudFront_createInvalidation :
    list Event -> Invalidation.Request -> Error + Invalidation.Result;
  cloudWatch_getMetricStatistics :
    list Event -> MetricStatistics.Input -> Error + Metrics
}.

Arguments clock {Metrics} _ _.
Arguments s3_upload {Metrics} _ _ _.
Arguments s3_getSignedUrl {Metrics} _ _ _ _.
Arguments cloudFront_createInvalidation {Metrics} _ _ _.
Arguments cloudWatch_getMetricStatistics {Metrics} _ _ _.

(** ** Computations: a promise settles to a rejection or a value *)

Definition M (A : Type) : Type := World -> (Error + A) * World.

Definition ret {A} (a : A) : M A := fun w => (inr a, w).

Definition throw {A} (e : Error) : M A := fun w => (inl e, w).

Definition bind {A B} (m : M A) (k : A -> M B) : M B :=
  fun w =>
    match m w with
    | (inr a, w') => k a w'
    | (inl e, w') => (inl e, w')
    end.

(** [try { m } catch (error) { h error }] *)
Definition try_catch {A} (m : M A) (h : Error -> M A) : M A :=
  fun w =>
    match m w with
    | (inl e, w') => h e w'
    | r => r
    end.

Declare Scope cdn_scope.
Delimit Scope cdn_scope with cdn.
Notation "x <- m ;; k" := (bind m (fun x => k))
  (at level 100, m at next level, right associativity) : cdn_scope.
Notation "m ;;; k" := (bind m (fun _ => k))
  (at level 100, right associativity) : cdn_scope.

(** The outcome of a call: settled value and final world. *)
Definition settled {A} (m : M A) (w : World) : Error + A := fst (m w).
Definition after {A} (m : M A) (w : World) : World := snd (m w).

(** The requests of each kind found in a trace. *)
Definition uploads (tr : list Event) : list PutObjectRequest.t :=
  flat_map (fun e => match e with S3Upload p => [p] | _ => [] end) tr.

Definition signings (tr : list Event) : list (string * SignedUrlParams.t) :=
  flat_map (fun e => match e with S3GetSignedUrl o p => [(o, p)] | _ => [] end) tr.

Definition invalidations (tr : list Event) : list Invalidation.Request :=
  flat_map (fun e => match e with CreateInvalidation p => [p] | _ => [] end) tr.

Definition metric_queries (tr : list Event) : list MetricStatistics.Input :=
  flat_map (fun e => match e with GetMetricStatistics p => [p] | _ => [] end) tr.

(** ** The service *)

(** [ConfigService]: [get] of a variable, [undefined] when it is not set. *)
Definition ConfigService := string -> JS.value.

Definition get_or (configService : ConfigService) (k d : string) : JS.value :=
  match configService k with
  | Some v => Some v
  | None => Some d
  end.

(** What the constructor hands to [AWS.config.update]. *)
Record AWSConfig := {
  accessKeyId : JS.value;
  secretAccessKey : JS.value;
  region : JS.value
}.

Record CDNService := {
  configService : ConfigService;
  awsConfig : AWSConfig;
  bucketName : JS.value;
  cdnDomain : JS.value
}.

Definition constructor (configService : ConfigService) : CDNService :=
  {| configService := configService;
     awsConfig :=
       {| accessKeyId := configService "AWS_ACCESS_KEY_ID";
          secretAccessKey := configService "AWS_SECRET_ACCESS_KEY";
          region := get_or configService "AWS_REGION" "us-east-1" |};
     bucketName := configService "AWS_S3_BUCKET";
     cdnDomain := configService "CDN_DOMAIN" |}.

(** [const { quality = "medium", format = "mp3" } = options], with
    [options = {}] when the argument is omitted. *)
Definition quality_of (options : option StreamingOptions) : Quality :=
  match quality (match options with Some o => o | None => no_options end) with
  | Some q => q
  | None => medium
  end.

Definition format_of (options : option StreamingOptions) : Format :=
  match format (match options with Some o => o | None => no_options end) with
  | Some f => f
  | None => mp3
  end.

Section Service.

Context {Metrics : Type}.
Variable env : Env Metrics.
Variable this : CDNService.

Local Open Scope cdn_scope.

(** [Date.now()] and [new Date()]: the next reading of the clock. *)
Definition Date_now : M Z :=
  fun w => (inr (clock env (reads w)),
            {| reads := S (reads w); trace := trace w |}).

Definition new_Date : M Z := Date_now.

Definition logger_log (msg : string) : M unit :=
  fun w => (inr tt, emit (LoggerLog msg) w).

Definition logger_error (msg : string) (error : Error) : M unit :=
  fun w => (inr tt, emit (LoggerError msg error) w).

(** [await this.s3.upload(params).promise()] *)
Definition upload (params : PutObjectRequest.t) : M SendData.t :=
  fun w => (s3_upload env (trace w) params, emit (S3Upload params) w).

(** [this.s3.getSignedUrl(operation, params)] *)
Definition getSignedUrl (operation : string) (params : SignedUrlParams.t)
  : M string :=
  fun w => (s3_getSignedUrl env (trace w) operation params,
            emit (S3GetSignedUrl operation params) w).

(** [await this.cloudFront.createInvalidation(params).promise()] *)
Definition createInvalidation (params : Invalidation.Request)
  : M Invalidation.Result :=
  fun w => (cloudFront_createInvalidation env (trace w) params,
            emit (CreateInvalidation params) w).

(** [await cloudWatch.getMetricStatistics(params).promise()] *)
Definition getMetricStatistics (params : MetricStatistics.Input) : M Metrics :=
  fun w => (cloudWatch_getMetricStatistics env (trace w) params,
            emit (GetMetricStatistics params) w).

(** The [uploadParams] constant of [uploadAudioFile], as a function of what
    it is built from; [now] is the [new Date()] it reads. *)
Definition uploadParams
  (file : list Byte.byte) (key contentType : string) (now : Z)
  : PutObjectRequest.t :=
  {| PutObjectRequest.Bucket := bucketName this;
     PutObjectRequest.Key := key;
     PutObjectRequest.Body := file;
     PutObjectRequest.ContentType := contentType;
     PutObjectRequest.CacheControl := "max-age=31536000";
     PutObjectRequest.Metadata := [("uploaded-at", JS.toISOString now)] |}.

(** The default of the [contentType] parameter. *)
Definition contentType_of (contentType : option string) : string :=
  match contentType with Some c => c | None => "audio/mpeg" end.

Definition uploadAudioFile
  (file : list Byte.byte) (key : string) (contentType : option string)
  : M CDNUploadResult.t :=
  let contentType := contentType_of contentType in
  try_catch
    (now <- new_Date ;;
     let uploadParams := uploadParams file key contentType now in
     result <- upload uploadParams ;;
     ret {| CDNUploadResult.url := SendData.Location result;
            CDNUploadResult.cdnUrl :=
              "https://" ++ JS.interp (cdnDomain this) ++ "/" ++ key;
            CDNUploadResult.key := SendData.Key result;
            CDNUploadResult.etag := SendData.ETag result |})
    (fun error =>
       logger_error ("Failed to upload audio file " ++ key ++ ":") error ;;;
       throw error).

Definition generateStreamingUrl
  (trackId : string) (options : option StreamingOptions) : M string :=
  try_catch
    (let quality := quality_of options in
     let format := format_of options in
     let key :=
       "tracks/" ++ trackId ++ "/" ++ Quality_str quality ++ "." ++
       Format_str format in
     signedUrl <- getSignedUrl "getObject"
       {| SignedUrlParams.Bucket := bucketName this;
          SignedUrlParams.Key := key;
          SignedUrlParams.Expires := 3600;
          SignedUrlParams.ResponseContentType := "audio/" ++ Format_str format;
          SignedUrlParams.ResponseCacheControl := "max-age=3600" |} ;;
     ret signedUrl)
    (fun error =>
       logger_error
         ("Failed to generate streaming URL for track " ++ trackId ++ ":")
         error ;;;
       throw error).

Definition generateCDNStreamingUrl
  (trackId : string) (options : option StreamingOptions) : M string :=
  let quality := quality_of options in
  let format := format_of options in
  let key :=
    "tracks/" ++ trackId ++ "/" ++ Quality_str quality ++ "." ++
    Format_str format in
  ret ("https://" ++ JS.interp (cdnDomain this) ++ "/" ++ key).

(** The [invalidationParams] constant of [invalidateCDNCache]; [now] is the
    [Date.now()] it reads. *)
Definition invalidationParams
  (distributionId : JS.value) (paths : list string) (now : Z)
  : Invalidation.Request :=
  {| Invalidation.DistributionId := distributionId;
     Invalidation.InvalidationBatch :=
       {| Invalidation.CallerReference :=
            "invalidation-" ++ JS.Number_toString now;
          Invalidation.paths :=
            {| Invalidation.Quantity := Z.of_nat (List.length paths);
               Invalidation.Items := map (fun path => "/" ++ path) paths |}
       |} |}.

Definition invalidateCDNCache (paths : list string) : M unit :=
  try_catch
    (let distributionId := configService this "CLOUDFRONT_DISTRIBUTION_ID" in
     now <- Date_now ;;
     let invalidationParams := invalidationParams distributionId paths now in
     _ <- createInvalidation invalidationParams ;;
     logger_log ("CDN cache invalidated for paths: " ++ JS.join ", " paths))
    (fun error =>
       logger_error "Failed to invalidate CDN cache:" error ;;;
       throw error).

(** The [params] constant of [getStreamingMetrics]; [now] is the
    [Date.now()] read for [StartTime] and [date] the [new Date()] read next
    for [EndTime]. *)
Definition params (now date : Z) : MetricStatistics.Input :=
  {| MetricStatistics.MetricName := "BytesDownloaded";
     MetricStatistics.Namespace := "AWS/CloudFront";
     MetricStatistics.StartTime := now - 24 * 60 * 60 * 1000;
     MetricStatistics.EndTime := date;
     MetricStatistics.Period := 3600;
     MetricStatistics.Statistics := ["Sum"; "Average"];
     MetricStatistics.Dimensions :=
       [ {| MetricStatistics.Name := "DistributionId";
            MetricStatistics.Value :=
              configService this "CLOUDFRONT_DISTRIBUTION_ID" |} ] |}.

(** The resolved value is the backend's answer, or [null] ([None]). *)
Definition getStreamingMetrics (trackId : string) : M (option Metrics) :=
  try_catch
    (now <- Date_now ;;
     date <- new_Date ;;
     let params := params now date in
     metrics <- getMetricStatistics params ;;
     ret (Some metrics))
    (fun error =>
       logger_error
         ("Failed to get streaming metrics for track " ++ trackId ++ ":")
         error ;;;
       ret None).

End Service.

(** ** The storage key layout, as the interface documents it *)

(** [tracks/{trackId}/{quality}.{format}] *)
Definition storage_key (trackId : string) (q : Quality) (f : Format) : string :=
  "tracks/" ++ trackId ++ "/" ++ Quality_str q ++ "." ++ Format_str f.

(** ** Sample environments *)

Definition sample_config : ConfigService :=
  fun k =>
    if String.eqb k "AWS_S3_BUCKET" then Some "lyricsflip-audio"
    else if String.eqb k "CDN_DOMAIN" then Some "cdn.lyricsflip.test"
    else if String.eqb k "CLOUDFRONT_DISTRIBUTION_ID" then Some "E2EXAMPLE"
    else None.

Definition sample_service : CDNService := constructor sample_config.

(** A clock that moves one millisecond per reading. *)
Definition ticking_clock (n : nat) : Z := 1700000000123 + Z.of_nat n.

(** A clock read several times within one millisecond. *)
Definition stuck_clock (_ : nat) : Z := 1700000000123.

(** Every call is answered. *)
Definition healthy (clk : nat -> Z) : Env (list Z) :=
  {| clock := clk;
     s3_upload := fun _ p =>
       inr {| SendData.Location :=
                "https://s3.test/" ++ PutObjectRequest.Key p;
              SendData.ETag := "etag-1";
              SendData.Bucket := JS.interp (PutObjectRequest.Bucket p);
              SendData.Key := PutObjectRequest.Key p |};
     s3_getSignedUrl := fun _ _ p =>
       inr ("https://s3.test/" ++ SignedUrlParams.Key p ++ "?X-Amz-Expires=" ++
            JS.Number_toString (SignedUrlParams.Expires p));
     cloudFront_createInvalidation := fun _ _ =>
       inr {| Invalidation.Id := "I1"; Invalidation.Status := "InProgress" |};
     cloudWatch_getMetricStatistics := fun _ _ => inr [1024; 2048] |}.

(** Every call throws [e]. *)
Definition failing (e : Error) : Env (list Z) :=
  {| clock := ticking_clock;
     s3_upload := fun _ _ => inl e;
     s3_getSignedUrl := fun _ _ _ => inl e;
     cloudFront_createInvalidation := fun _ _ => inl e;
     cloudWatch_getMetricStatistics := fun _ _ => inl e |}.

Definition network_down : Error :=
  {| name := "NetworkingError"; message := "connect ETIMEDOUT" |}.

Definition world0 : World := {| reads := 0; trace := [] |}.

(** ** Path normalisation, as the interface documents it *)

Definition starts_with_slash (path : string) : bool :=
  match path with
  | String c _ => Ascii.eqb c "/"
  | EmptyString => false
  end.

(** A path made absolute: prefixed with [/] unless it already starts with
    one. *)
Definition normalized_path (path : string) : string :=
  if starts_with_slash path then path else "/" ++ path.

(** ** Further observations of a trace *)

(** The log lines of a trace. *)
Definition logs (tr : list Event) : list Event :=
  flat_map (fun e => match e with
                     | LoggerLog _ | LoggerError _ _ => [e]
                     | _ => []
                     end) tr.

(** Whether a string holds a [/]. *)
Fixpoint has_slash (s : string) : bool :=
  match s with
  | EmptyString => false
  | String c rest => Ascii.eqb c "/" || has_slash rest
  end.

(** A string without its first character. *)
Definition behead (s : string) : string :=
  match s with
  | EmptyString => EmptyString
  | String _ rest => rest
  end.

(** What every request of a trace made by the service looks like: puts
    cached for a year, signatures for a one-hour read, batches whose
    quantity counts their items, each item an absolute path. *)
Definition well_shaped (tr : list Event) : Prop :=
  Forall (fun p => PutObjectRequest.CacheControl p = "max-age=31536000")
    (uploads tr)
  /\ Forall (fun s => fst s = "getObject" /\
                      SignedUrlParams.Expires (snd s) = 3600 /\
                      SignedUrlParams.ResponseCacheControl (snd s) =
                      "max-age=3600")
       (signings tr)
  /\ Forall (fun r =>
               let batch :=
                 Invalidation.paths (Invalidation.InvalidationBatch r) in
               Invalidation.Quantity batch =
               Z.of_nat (List.length (Invalidation.Items batch))
               /\ Forall (fun item => starts_with_slash item = true)
                    (Invalidation.Items batch))
       (invalidations tr).

(** ** Proof automation *)

(** Case analysis on a decimal digit. *)
Ltac ten_digits r H :=
  assert (r = 0 \/ r = 1 \/ r = 2 \/ r = 3 \/ r = 4 \/
          r = 5 \/ r = 6 \/ r = 7 \/ r = 8 \/ r = 9) as H by lia;
  repeat (destruct H as [H | H]); subst r.

(** Case analysis on the integer tests of a goal, innermost first. *)
Ltac no_test t :=
  lazymatch t with
  | context [if _ then _ else _] => fail
  | _ => idtac
  end.

Ltac split_tests :=
  repeat (match goal with
          | |- context [Z.ltb ?x ?y] =>
              no_test x; no_test y; destruct (Z.ltb_spec x y)
          | |- context [Z.leb ?x ?y] =>
              no_test x; no_test y; destruct (Z.leb_spec x y)
          | |- context [Z.eqb ?x ?y] =>
              no_test x; no_test y; destruct (Z.eqb_spec x y)
          end; cbn [andb orb negb]).

Ltac div_lia := Z.div_mod_to_equations; lia.

(** * Properties *)

Example toISOString_epoch : JS.toISOString 0 = "1970-01-01T00:00:00.000Z".
Proof. reflexivity. Qed.

Example toISOString_2023 :
  JS.toISOString 1700000000123 = "2023-11-14T22:13:20.123Z".
Proof. reflexivity. Qed.

Example toISOString_leap_day :
  JS.toISOString 1709251199999 = "2024-02-29T23:59:59.999Z".
Proof. reflexivity. Qed.

Example toISOString_before_epoch :
  JS.toISOString (-1) = "1969-12-31T23:59:59.999Z".
Proof. reflexivity. Qed.

Example toISOString_min :
  JS.toISOString (- JS.maxTime) = "-271821-04-20T00:00:00.000Z".
Proof. reflexivity. Qed.

Example toISOString_max :
  JS.toISOString JS.maxTime = "+275760-09-13T00:00:00.000Z".
Proof. reflexivity. Qed.

Example Date_parse_2023 :
  JS.Date_parse "2023-11-14T22:13:20.123Z" = Some 1700000000123.
Proof. reflexivity. Qed.

Example Date_parse_extremes :
  JS.Date_parse "-271821-04-20T00:00:00.000Z" = Some (- JS.maxTime)
  /\ JS.Date_parse "+275760-09-13T00:00:00.000Z" = Some JS.maxTime
  /\ JS.Date_parse "+275760-09-13T00:00:00.001Z" = None
  /\ JS.Date_parse "0000-01-01T00:00:00.000Z" = Some (-62167219200000).
Proof. repeat split. Qed.

Example Number_toString_now :
  JS.Number_toString 1700000000123 = "1700000000123".
Proof. reflexivity. Qed.

(** ** Traces *)

Lemma uploads_emit tr e :
  uploads (snoc tr e) =
  (uploads tr ++ match e with S3Upload p => [p] | _ => [] end)%list.
Proof.
  unfold uploads, snoc. rewrite flat_map_app. simpl. now rewrite app_nil_r.
Qed.

Lemma signings_emit tr e :
  signings (snoc tr e) =
  (signings tr ++ match e with S3GetSignedUrl o p => [(o, p)] | _ => [] end)%list.
Proof.
  unfold signings, snoc. rewrite flat_map_app. simpl. now rewrite app_nil_r.
Qed.

Lemma invalidations_emit tr e :
  invalidations (snoc tr e) =
  (invalidations tr ++ match e with CreateInvalidation p => [p] | _ => [] end)%list.
Proof.
  unfold invalidations, snoc. rewrite flat_map_app. simpl. now rewrite app_nil_r.
Qed.

Lemma metric_queries_emit tr e :
  metric_queries (snoc tr e) =
  (metric_queries tr ++ match e with GetMetricStatistics p => [p] | _ => [] end)%list.
Proof.
  unfold metric_queries, snoc. rewrite flat_map_app. simpl. now rewrite app_nil_r.
Qed.

(** ** What each operation does, step by step *)

Section Runs.

Context {Metrics : Type}.
Variable env : Env Metrics.
Variable this : CDNService.

(** The request [generateStreamingUrl] signs. *)
Lemma generateStreamingUrl_run trackId options w :
  let request :=
    {| SignedUrlParams.Bucket := bucketName this;
       SignedUrlParams.Key :=
         "tracks/" ++ trackId ++ "/" ++ Quality_str (quality_of options) ++
         "." ++ Format_str (format_of options);
       SignedUrlParams.Expires := 3600;
       SignedUrlParams.ResponseContentType :=
         "audio/" ++ Format_str (format_of options);
       SignedUrlParams.ResponseCacheControl := "max-age=3600" |} in
  let sent := emit (S3GetSignedUrl "getObject" request) w in
  generateStreamingUrl env this trackId options w =
  match s3_getSignedUrl env (trace w) "getObject" request with
  | inr signedUrl => (inr signedUrl, sent)
  | inl error =>
      (inl error,
       emit (LoggerError
               ("Failed to generate streaming URL for track " ++ trackId ++ ":")
               error) sent)
  end.
Proof.
  cbv zeta. unfold generateStreamingUrl, try_catch, bind, getSignedUrl.
  destruct (s3_getSignedUrl env (trace w) "getObject" _); reflexivity.
Qed.

Lemma uploadAudioFile_run file key contentType w :
  let request :=
    uploadParams this file key (contentType_of contentType)
      (clock env (reads w)) in
  let sent :=
    emit (S3Upload request) {| reads := S (reads w); trace := trace w |} in
  uploadAudioFile env this file key contentType w =
  match s3_upload env (trace w) request with
  | inr result =>
      (inr {| CDNUploadResult.url := SendData.Location result;
              CDNUploadResult.cdnUrl :=
                "https://" ++ JS.interp (cdnDomain this) ++ "/" ++ key;
              CDNUploadResult.key := SendData.Key result;
              CDNUploadResult.etag := SendData.ETag result |}, sent)
  | inl error =>
      (inl error,
       emit (LoggerError ("Failed to upload audio file " ++ key ++ ":") error)
         sent)
  end.
Proof.
  cbv zeta.
  unfold uploadAudioFile, try_catch, bind, new_Date, Date_now, upload. simpl.
  destruct (s3_upload env (trace w) _); reflexivity.
Qed.

Lemma invalidateCDNCache_run paths w :
  let request :=
    invalidationParams (configService this "CLOUDFRONT_DISTRIBUTION_ID")
      paths (clock env (reads w)) in
  let sent :=
    emit (CreateInvalidation request)
      {| reads := S (reads w); trace := trace w |} in
  invalidateCDNCache env this paths w =
  match cloudFront_createInvalidation env (trace w) request with
  | inr _ =>
      (inr tt,
       emit (LoggerLog
               ("CDN cache invalidated for paths: " ++ JS.join ", " paths))
         sent)
  | inl error =>
      (inl error,
       emit (LoggerError "Failed to invalidate CDN cache:" error) sent)
  end.
Proof.
  cbv zeta.
  unfold invalidateCDNCache, try_catch, bind, Date_now, createInvalidation.
  simpl.
  destruct (cloudFront_createInvalidation env (trace w) _); reflexivity.
Qed.

Lemma getStreamingMetrics_run trackId w :
  let request :=
    params this (clock env (reads w)) (clock env (S (reads w))) in
  let sent :=
    emit (GetMetricStatistics request)
      {| reads := S (S (reads w)); trace := trace w |} in
  getStreamingMetrics env this trackId w =
  match cloudWatch_getMetricStatistics env (trace w) request with
  | inr metrics => (inr (Some metrics), sent)
  | inl error =>
      (inr None,
       emit (LoggerError
               ("Failed to get streaming metrics for track " ++ trackId ++ ":")
               error) sent)
  end.
Proof.
  cbv zeta.
  unfold getStreamingMetrics, try_catch, bind, new_Date, Date_now,
    getMetricStatistics.
  simpl.
  destruct (cloudWatch_getMetricStatistics env (trace w) _); reflexivity.
Qed.

End Runs.

(** Whatever the signer answers, [generateStreamingUrl] leaves exactly one
    more signing request in the trace. *)
Lemma generateStreamingUrl_signs {Metrics} (env : Env Metrics) this
      trackId options w :
  signings
    (trace (after (generateStreamingUrl env this trackId options) w)) =
  snoc (signings (trace w))
    ("getObject",
     {| SignedUrlParams.Bucket := bucketName this;
        SignedUrlParams.Key :=
          "tracks/" ++ trackId ++ "/" ++ Quality_str (quality_of options) ++
          "." ++ Format_str (format_of options);
        SignedUrlParams.Expires := 3600;
        SignedUrlParams.ResponseContentType :=
          "audio/" ++ Format_str (format_of options);
        SignedUrlParams.ResponseCacheControl := "max-age=3600" |}).
Proof.
  unfold after. rewrite generateStreamingUrl_run. cbv zeta.
  destruct (s3_getSignedUrl env (trace w) "getObject" _); simpl;
    repeat rewrite signings_emit; simpl; now rewrite ?app_nil_r.
Qed.

(** Whatever the control plane answers, [invalidateCDNCache] leaves exactly
    one more invalidation request in the trace. *)
Lemma invalidateCDNCache_submits {Metrics} (env : Env Metrics) this paths w :
  invalidations (trace (after (invalidateCDNCache env this paths) w)) =
  snoc (invalidations (trace w))
   (invalidationParams (configService this "CLOUDFRONT_DISTRIBUTION_ID")
      paths (clock env (reads w))).
Proof.
  unfold after. rewrite invalidateCDNCache_run. cbv zeta.
  destruct (cloudFront_createInvalidation env (trace w) _); simpl;
    repeat rewrite invalidations_emit; simpl; now rewrite ?app_nil_r.
Qed.

(** ** Storage keys and URLs *)

(** C1. For every track id, quality and format, the key of the request that
    [generateStreamingUrl] signs is [tracks/{trackId}/{quality}.{format}], a
    function of these three alone, and [generateCDNStreamingUrl] resolves to
    [https://{cdnDomain}/] followed by that same key. *)
Theorem storage_key_agreement {Metrics} (env : Env Metrics) this
        trackId q f b w :
  let options := Some {| quality := Some q; format := Some f; bitrate := b |} in
  map (fun s => SignedUrlParams.Key (snd s))
    (signings
       (trace (after (generateStreamingUrl env this trackId options) w))) =
  snoc (map (fun s => SignedUrlParams.Key (snd s)) (signings (trace w)))
   (storage_key trackId q f)
  /\ settled (generateCDNStreamingUrl this trackId options) w =
     inr ("https://" ++ JS.interp (cdnDomain this) ++ "/" ++
          storage_key trackId q f)
  /\ storage_key trackId q f =
     "tracks/" ++ trackId ++ "/" ++ Quality_str q ++ "." ++ Format_str f.
Proof.
  cbv zeta. repeat split.
  rewrite generateStreamingUrl_signs. unfold snoc. rewrite map_app. reflexivity.
Qed.

(** C2. With [options] omitted, or given without [quality] or without
    [format], the request that [generateStreamingUrl] signs uses "medium"
    for the missing quality and "mp3" for the missing format, in the key and
    in the response content type. *)
Theorem generateStreamingUrl_defaults {Metrics} (env : Env Metrics) this
        trackId w :
  let signed options :=
    signings
      (trace (after (generateStreamingUrl env this trackId options) w)) in
  let request key contentType :=
    {| SignedUrlParams.Bucket := bucketName this;
       SignedUrlParams.Key := key;
       SignedUrlParams.Expires := 3600;
       SignedUrlParams.ResponseContentType := contentType;
       SignedUrlParams.ResponseCacheControl := "max-age=3600" |} in
  signed None =
  snoc (signings (trace w))
   ("getObject",
     request ("tracks/" ++ trackId ++ "/medium.mp3") "audio/mp3")
  /\ (forall b,
      signed (Some {| quality := None; format := None; bitrate := b |}) =
      signed None)
  /\ (forall f b,
      signed (Some {| quality := None; format := Some f; bitrate := b |}) =
      snoc (signings (trace w))
       ("getObject",
         request ("tracks/" ++ trackId ++ "/medium." ++ Format_str f)
           ("audio/" ++ Format_str f)))
  /\ (forall q b,
      signed (Some {| quality := Some q; format := None; bitrate := b |}) =
      snoc (signings (trace w))
       ("getObject",
         request ("tracks/" ++ trackId ++ "/" ++ Quality_str q ++ ".mp3")
           "audio/mp3")).
Proof.
  cbv beta zeta. repeat split; intros;
    rewrite !generateStreamingUrl_signs; reflexivity.
Qed.

(** C6. For every track id and options, the request [generateStreamingUrl]
    signs is a "getObject" with expiry 3600, response content type
    [audio/{format}], response cache control [max-age=3600] and key
    [tracks/{trackId}/{quality}.{format}]; the call resolves to whatever URL
    the signer returns for it. For track "track123", high, flac, the key is
    tracks/track123/high.flac and the content type audio/flac. *)
Theorem signed_url_request {Metrics} (env : Env Metrics) this
        trackId options w :
  let request :=
    {| SignedUrlParams.Bucket := bucketName this;
       SignedUrlParams.Key :=
         storage_key trackId (quality_of options) (format_of options);
       SignedUrlParams.Expires := 3600;
       SignedUrlParams.ResponseContentType :=
         "audio/" ++ Format_str (format_of options);
       SignedUrlParams.ResponseCacheControl := "max-age=3600" |} in
  signings
    (trace (after (generateStreamingUrl env this trackId options) w)) =
  snoc (signings (trace w)) ("getObject", request)
  /\ (forall signedUrl,
      s3_getSignedUrl env (trace w) "getObject" request = inr signedUrl ->
      settled (generateStreamingUrl env this trackId options) w =
      inr signedUrl)
  /\ (let high_flac :=
        Some {| quality := Some high; format := Some flac; bitrate := None |} in
      signings
        (trace (after (generateStreamingUrl env this "track123" high_flac) w)) =
      snoc (signings (trace w))
       ("getObject",
         {| SignedUrlParams.Bucket := bucketName this;
            SignedUrlParams.Key := "tracks/track123/high.flac";
            SignedUrlParams.Expires := 3600;
            SignedUrlParams.ResponseContentType := "audio/flac";
            SignedUrlParams.ResponseCacheControl := "max-age=3600" |})).
Proof.
  cbv zeta. repeat split.
  - apply generateStreamingUrl_signs.
  - intros signedUrl H. unfold settled.
    rewrite generateStreamingUrl_run. cbv zeta.
    unfold storage_key in H. now rewrite H.
  - apply generateStreamingUrl_signs.
Qed.

(** C8. [generateCDNStreamingUrl] always resolves, to a URL, for every
    track id and options, and touches nothing: no request, no clock read,
    no log line. *)
Theorem generateCDNStreamingUrl_total this trackId options w :
  generateCDNStreamingUrl this trackId options w =
  (inr ("https://" ++ JS.interp (cdnDomain this) ++ "/" ++
        storage_key trackId (quality_of options) (format_of options)), w).
Proof. reflexivity. Qed.

(** C10. Called with no path, [invalidateCDNCache] still submits one
    invalidation request, whose batch has quantity 0 and no item; the call
    settles as the control plane answers that request, resolved when it is
    accepted. *)
Theorem invalidate_empty_still_submits {Metrics} (env : Env Metrics) this w :
  let request :=
    {| Invalidation.DistributionId :=
         configService this "CLOUDFRONT_DISTRIBUTION_ID";
       Invalidation.InvalidationBatch :=
         {| Invalidation.CallerReference :=
              "invalidation-" ++ JS.Number_toString (clock env (reads w));
            Invalidation.paths :=
              {| Invalidation.Quantity := 0; Invalidation.Items := [] |} |}
    |} in
  invalidations (trace (after (invalidateCDNCache env this []) w)) =
  snoc (invalidations (trace w)) request
  /\ settled (invalidateCDNCache env this []) w =
     match cloudFront_createInvalidation env (trace w) request with
     | inr _ => inr tt
     | inl error => inl error
     end.
Proof.
  cbv zeta. split.
  - apply invalidateCDNCache_submits.
  - unfold settled. rewrite invalidateCDNCache_run. cbv zeta.
    unfold invalidationParams. simpl.
    destruct (cloudFront_createInvalidation env (trace w) _); reflexivity.
Qed.

Example invalidate_empty_accepted :
  invalidateCDNCache (healthy ticking_clock) sample_service [] world0 =
  (inr tt,
   {| reads := 1;
      trace :=
        [CreateInvalidation
           {| Invalidation.DistributionId := Some "E2EXAMPLE";
              Invalidation.InvalidationBatch :=
                {| Invalidation.CallerReference :=
                     "invalidation-1700000000123";
                   Invalidation.paths :=
                     {| Invalidation.Quantity := 0;
                        Invalidation.Items := [] |} |} |};
         LoggerLog "CDN cache invalidated for paths: "] |}).
Proof. reflexivity. Qed.

(** ** Cache invalidation *)

(** The item lists of the batches in a trace. *)
Lemma invalidateCDNCache_items {Metrics} (env : Env Metrics) this paths w :
  map (fun r => Invalidation.paths (Invalidation.InvalidationBatch r))
    (invalidations (trace (after (invalidateCDNCache env this paths) w))) =
  snoc
    (map (fun r => Invalidation.paths (Invalidation.InvalidationBatch r))
       (invalidations (trace w)))
    {| Invalidation.Quantity := Z.of_nat (List.length paths);
       Invalidation.Items := map (fun path => "/" ++ path) paths |}.
Proof.
  rewrite invalidateCDNCache_submits. unfold snoc. now rewrite map_app.
Qed.

Lemma prefixed_is_normalized path :
  starts_with_slash path = false -> "/" ++ path = normalized_path path.
Proof. unfold normalized_path. now intros ->. Qed.

(** C3, as the code has it. For every list of paths the batch built by
    [invalidateCDNCache] has a quantity equal to the length of the list and,
    as items, the paths each with a [/] put in front (["a/b"; "c"] gives
    ["/a/b"; "/c"]). Every item starts with [/]; when no path starts with
    [/] the items are the normalized paths. *)
Theorem invalidation_batch_paths {Metrics} (env : Env Metrics) this paths w :
  let sent p :=
    map (fun r => Invalidation.paths (Invalidation.InvalidationBatch r))
      (invalidations (trace (after (invalidateCDNCache env this p) w))) in
  let before :=
    map (fun r => Invalidation.paths (Invalidation.InvalidationBatch r))
      (invalidations (trace w)) in
  sent paths =
  snoc before
    {| Invalidation.Quantity := Z.of_nat (List.length paths);
       Invalidation.Items := map (fun path => "/" ++ path) paths |}
  /\ sent ["a/b"; "c"] =
     snoc before
       {| Invalidation.Quantity := 2; Invalidation.Items := ["/a/b"; "/c"] |}
  /\ Forall (fun item => starts_with_slash item = true)
       (map (fun path => "/" ++ path) paths)
  /\ (Forall (fun path => starts_with_slash path = false) paths ->
      map (fun path => "/" ++ path) paths = map normalized_path paths).
Proof.
  cbv zeta. repeat split.
  - apply invalidateCDNCache_items.
  - apply invalidateCDNCache_items.
  - apply Forall_forall. intros item Hin. apply in_map_iff in Hin.
    destruct Hin as (path & <- & _). reflexivity.
  - intros Hrel. apply map_ext_in. intros path Hin.
    apply prefixed_is_normalized.
    now apply (proj1 (Forall_forall _ _) Hrel).
Qed.

Lemma invalidation_batch_paths_witness :
  Forall (fun path => starts_with_slash path = false) ["a/b"; "c"]
  /\ map (fun path => "/" ++ path) ["a/b"; "c"] =
     map normalized_path ["a/b"; "c"].
Proof.
  assert (H : Forall (fun path => starts_with_slash path = false)
                ["a/b"; "c"]) by (repeat constructor).
  split; [exact H |].
  exact (proj2 (proj2 (proj2
    (invalidation_batch_paths (healthy ticking_clock) sample_service
       ["a/b"; "c"] world0))) H).
Defined.

(** C3, as stated, fails: a path that already starts with [/] gets a
    second one, so the item is not the normalized path. *)
Lemma leading_slash_is_doubled :
  let paths := ["/a/b"] in
  map (fun r => Invalidation.Items
                  (Invalidation.paths (Invalidation.InvalidationBatch r)))
    (invalidations
       (trace (after (invalidateCDNCache (healthy ticking_clock)
                        sample_service paths) world0))) =
  [["//a/b"]]
  /\ ["//a/b"] <> map normalized_path paths.
Proof.
  cbv zeta. split; [reflexivity | discriminate].
Qed.

(** ** Error policy *)

(** C4. When the SDK call fails with an error, [uploadAudioFile],
    [generateStreamingUrl] and [invalidateCDNCache] reject with that same
    error; [getStreamingMetrics] resolves to [null] then, and never
    rejects. *)
Theorem error_policy {Metrics} (env : Env Metrics) this w e :
  (forall file key contentType,
      s3_upload env (trace w)
        (uploadParams this file key (contentType_of contentType)
           (clock env (reads w))) = inl e ->
      settled (uploadAudioFile env this file key contentType) w = inl e)
  /\ (forall trackId options,
      s3_getSignedUrl env (trace w) "getObject"
        {| SignedUrlParams.Bucket := bucketName this;
           SignedUrlParams.Key :=
             storage_key trackId (quality_of options) (format_of options);
           SignedUrlParams.Expires := 3600;
           SignedUrlParams.ResponseContentType :=
             "audio/" ++ Format_str (format_of options);
           SignedUrlParams.ResponseCacheControl := "max-age=3600" |} =
      inl e ->
      settled (generateStreamingUrl env this trackId options) w = inl e)
  /\ (forall paths,
      cloudFront_createInvalidation env (trace w)
        (invalidationParams (configService this "CLOUDFRONT_DISTRIBUTION_ID")
           paths (clock env (reads w))) = inl e ->
      settled (invalidateCDNCache env this paths) w = inl e)
  /\ (forall trackId,
      cloudWatch_getMetricStatistics env (trace w)
        (params this (clock env (reads w)) (clock env (S (reads w)))) =
      inl e ->
      settled (getStreamingMetrics env this trackId) w = inr None)
  /\ (forall trackId e',
      settled (getStreamingMetrics env this trackId) w <> inl e').
Proof.
  unfold settled. repeat split.
  - intros file key contentType H.
    rewrite uploadAudioFile_run. cbv zeta. now rewrite H.
  - intros trackId options H.
    rewrite generateStreamingUrl_run. cbv zeta.
    unfold storage_key in H. now rewrite H.
  - intros paths H.
    rewrite invalidateCDNCache_run. cbv zeta. now rewrite H.
  - intros trackId H.
    rewrite getStreamingMetrics_run. cbv zeta. now rewrite H.
  - intros trackId e'.
    rewrite getStreamingMetrics_run. cbv zeta.
    destruct (cloudWatch_getMetricStatistics env (trace w) _); discriminate.
Qed.

Lemma error_policy_witness :
  settled (uploadAudioFile (failing network_down) sample_service
             [] "tracks/t1/medium.mp3" None) world0 = inl network_down
  /\ settled (generateStreamingUrl (failing network_down) sample_service
                "t1" None) world0 = inl network_down
  /\ settled (invalidateCDNCache (failing network_down) sample_service
                ["tracks/t1/medium.mp3"]) world0 = inl network_down
  /\ settled (getStreamingMetrics (failing network_down) sample_service "t1")
       world0 = inr None.
Proof.
  destruct (error_policy (failing network_down) sample_service world0
              network_down) as (Hupload & Hsign & Hinvalidate & Hmetrics & _).
  split; [| split; [| split]].
  - apply Hupload. reflexivity.
  - apply Hsign. reflexivity.
  - apply Hinvalidate. reflexivity.
  - apply Hmetrics. reflexivity.
Defined.

(** The failure is logged before it is handed on. *)
Example failed_upload_is_logged :
  trace (after (uploadAudioFile (failing network_down) sample_service
                  [] "tracks/t1/medium.mp3" None) world0) =
  [ S3Upload (uploadParams sample_service [] "tracks/t1/medium.mp3"
                "audio/mpeg" 1700000000123);
    LoggerError "Failed to upload audio file tracks/t1/medium.mp3:"
      network_down ].
Proof. reflexivity. Qed.

(** ** Metrics *)

(** C9. For any two track ids, from the same configuration, clock and
    world, [getStreamingMetrics] sends the same query (metric
    BytesDownloaded of AWS/CloudFront, from 24 hours before the first clock
    reading to the second reading, period 3600, statistics Sum and Average,
    one dimension: the configured distribution id) and resolves to the same
    value. *)
Theorem metrics_ignore_trackId {Metrics} (env : Env Metrics) this
        trackId1 trackId2 w :
  let query :=
    {| MetricStatistics.MetricName := "BytesDownloaded";
       MetricStatistics.Namespace := "AWS/CloudFront";
       MetricStatistics.StartTime := clock env (reads w) - 86400000;
       MetricStatistics.EndTime := clock env (S (reads w));
       MetricStatistics.Period := 3600;
       MetricStatistics.Statistics := ["Sum"; "Average"];
       MetricStatistics.Dimensions :=
         [ {| MetricStatistics.Name := "DistributionId";
              MetricStatistics.Value :=
                configService this "CLOUDFRONT_DISTRIBUTION_ID" |} ] |} in
  metric_queries
    (trace (after (getStreamingMetrics env this trackId1) w)) =
  snoc (metric_queries (trace w)) query
  /\ metric_queries
       (trace (after (getStreamingMetrics env this trackId2) w)) =
     snoc (metric_queries (trace w)) query
  /\ settled (getStreamingMetrics env this trackId1) w =
     settled (getStreamingMetrics env this trackId2) w.
Proof.
  cbv zeta. unfold settled, after.
  repeat rewrite getStreamingMetrics_run. cbv zeta.
  destruct (cloudWatch_getMetricStatistics env (trace w) _); simpl;
    repeat rewrite metric_queries_emit; simpl; unfold snoc;
    rewrite ?app_nil_r; repeat split; reflexivity.
Qed.

(** ** Caller references *)

Lemma to_int_not_nil n :
  Z.to_int n <> Decimal.Pos Decimal.Nil /\ Z.to_int n <> Decimal.Neg Decimal.Nil.
Proof.
  destruct n as [| p | p]; simpl; split; try discriminate;
    intros [= H]; revert H; apply DecimalPos.Unsigned.to_uint_nonnil.
Qed.

(** Distinct numbers print differently. *)
Lemma Number_toString_inj a b :
  JS.Number_toString a = JS.Number_toString b -> a = b.
Proof.
  unfold JS.Number_toString. intros H.
  apply (f_equal NilZero.int_of_string) in H.
  destruct (to_int_not_nil a) as [Ha1 Ha2].
  destruct (to_int_not_nil b) as [Hb1 Hb2].
  rewrite !NilZero.isi in H by assumption.
  injection H as H. apply (f_equal Z.of_int) in H.
  now rewrite !DecimalZ.of_to in H.
Qed.

(** C7, as the code has it. The caller reference of the batch a call builds
    is "invalidation-" followed by the clock reading of that call, in
    decimal; two calls carry the same reference exactly when they read the
    same millisecond. *)
Theorem caller_reference_by_clock {Metrics} (env : Env Metrics) this
        paths1 paths2 w1 w2 :
  let reference paths w :=
    map (fun r => Invalidation.CallerReference
                    (Invalidation.InvalidationBatch r))
      (invalidations (trace (after (invalidateCDNCache env this paths) w))) in
  let before w :=
    map (fun r => Invalidation.CallerReference
                    (Invalidation.InvalidationBatch r))
      (invalidations (trace w)) in
  reference paths1 w1 =
  snoc (before w1)
    ("invalidation-" ++ JS.Number_toString (clock env (reads w1)))
  /\ reference paths2 w2 =
     snoc (before w2)
       ("invalidation-" ++ JS.Number_toString (clock env (reads w2)))
  /\ ("invalidation-" ++ JS.Number_toString (clock env (reads w1)) =
      "invalidation-" ++ JS.Number_toString (clock env (reads w2)) <->
      clock env (reads w1) = clock env (reads w2)).
Proof.
  cbv beta zeta. rewrite !invalidateCDNCache_submits.
  unfold snoc. rewrite !map_app. simpl.
  split; [reflexivity | split; [reflexivity |]].
  split.
  - intros [= H]. now apply Number_toString_inj.
  - now intros ->.
Qed.

(** C7, as stated, fails: two calls, one after the other within the same
    millisecond, submit batches with the same caller reference. *)
Lemma same_millisecond_same_reference :
  let env := healthy stuck_clock in
  let w1 := after (invalidateCDNCache env sample_service ["a"]) world0 in
  let w2 := after (invalidateCDNCache env sample_service ["b"]) w1 in
  map (fun r => Invalidation.CallerReference
                  (Invalidation.InvalidationBatch r))
    (invalidations (trace w2)) =
  ["invalidation-1700000000123"; "invalidation-1700000000123"].
Proof. reflexivity. Qed.

(** ** Timestamps: [toISOString] prints what [Date_parse] reads back *)

Lemma append_assoc (a b c : string) : (a ++ b) ++ c = a ++ (b ++ c).
Proof. induction a as [| x a IH]; simpl; [reflexivity | now rewrite IH]. Qed.

Lemma digit_cases n :
  exists r, 0 <= r <= 9 /\ n mod 10 = r /\
            JS.digit n = ascii_of_N (48 + Z.to_N r).
Proof.
  exists (n mod 10). pose proof (Z.mod_pos_bound n 10 eq_refl).
  repeat split; lia.
Qed.

Lemma digit_is_digit n :
  JS.is_digit (JS.digit n) = true /\ JS.digit_value (JS.digit n) = n mod 10.
Proof.
  destruct (digit_cases n) as (r & Hr & -> & ->).
  ten_digits r H; split; reflexivity.
Qed.

Lemma is_digit_not_sign c :
  JS.is_digit c = true -> Ascii.eqb c "+" = false /\ Ascii.eqb c "-" = false.
Proof.
  destruct c as [[] [] [] [] [] [] [] []]; simpl; intros H;
    try discriminate H; split; reflexivity.
Qed.

(** Reading one more digit is reading the digits before it, then it. *)
Lemma read_digits_last k : forall acc s,
  JS.read_digits (S k) acc s =
  match JS.read_digits k acc s with
  | Some (v, String c rest) =>
      if JS.is_digit c then Some (10 * v + JS.digit_value c, rest) else None
  | _ => None
  end.
Proof.
  induction k as [| k IH]; intros acc s.
  - destruct s as [| c s]; simpl; [reflexivity |].
    destruct (JS.is_digit c); reflexivity.
  - destruct s as [| c s]; [reflexivity |].
    change (JS.read_digits (S (S k)) acc (String c s))
      with (if JS.is_digit c
            then JS.read_digits (S k) (10 * acc + JS.digit_value c) s
            else None).
    change (JS.read_digits (S k) acc (String c s))
      with (if JS.is_digit c
            then JS.read_digits k (10 * acc + JS.digit_value c) s
            else None).
    destruct (JS.is_digit c); [apply IH | reflexivity].
Qed.

Lemma read_digits_pad k : forall n acc rest,
  0 <= n < 10 ^ Z.of_nat k ->
  JS.read_digits k acc (JS.pad k n ++ rest) =
  Some (acc * 10 ^ Z.of_nat k + n, rest).
Proof.
  induction k as [| k IH]; intros n acc rest Hn.
  - simpl in *. do 2 f_equal. lia.
  - rewrite Nat2Z.inj_succ, Z.pow_succ_r in * by lia.
    rewrite read_digits_last.
    change (JS.pad (S k) n)
      with (JS.pad k (n / 10) ++ String (JS.digit n) EmptyString).
    rewrite append_assoc. simpl (String _ EmptyString ++ rest).
    rewrite IH by (split; [apply Z.div_pos | apply Z.div_lt_upper_bound]; lia).
    destruct (digit_is_digit n) as [-> ->].
    do 2 f_equal. pose proof (Z.div_mod n 10). lia.
Qed.

(** A padded number starts with a digit. *)
Lemma pad_starts_with_digit k : forall n rest,
  exists c s, JS.pad (S k) n ++ rest = String c s /\ JS.is_digit c = true.
Proof.
  induction k as [| k IH]; intros n rest.
  - exists (JS.digit n), rest. split; [reflexivity | apply digit_is_digit].
  - change (JS.pad (S (S k)) n)
      with (JS.pad (S k) (n / 10) ++ String (JS.digit n) EmptyString).
    rewrite append_assoc. apply IH.
Qed.

Lemma read_year_string y rest :
  -999999 <= y <= 999999 ->
  JS.read_year (JS.year_string y ++ rest) = Some (y, rest).
Proof.
  intros Hy. unfold JS.year_string.
  destruct (Z.leb_spec 0 y) as [H0 | H0];
    [destruct (Z.leb_spec y 9999) as [H1 | H1] |]; simpl andb; cbv iota.
  - destruct (pad_starts_with_digit 3 y rest) as (c & s & E & Hc).
    pose proof (read_digits_pad 4 y 0 rest) as R. rewrite E in *.
    unfold JS.read_year. destruct (is_digit_not_sign c Hc) as [-> ->].
    rewrite R by (simpl; lia). do 2 f_equal.
  - destruct (Z.ltb_spec y 0); [lia |].
    rewrite append_assoc.
    change ("+" ++ JS.pad 6 (Z.abs y) ++ rest)
      with (String "+" (JS.pad 6 (Z.abs y) ++ rest)).
    unfold JS.read_year. change (Ascii.eqb "+" "+") with true. cbv iota.
    rewrite (read_digits_pad 6) by (simpl; lia).
    do 2 f_equal. lia.
  - destruct (Z.ltb_spec y 0); [| lia].
    rewrite append_assoc.
    change ("-" ++ JS.pad 6 (Z.abs y) ++ rest)
      with (String "-" (JS.pad 6 (Z.abs y) ++ rest)).
    unfold JS.read_year. change (Ascii.eqb "-" "+") with false.
    change (Ascii.eqb "-" "-") with true. cbv iota.
    rewrite (read_digits_pad 6) by (simpl; lia).
    destruct (Z.eqb_spec (0 * 10 ^ Z.of_nat 6 + Z.abs y) 0) as [E | E];
      [lia |].
    do 2 f_equal. lia.
Qed.

Lemma read_char_cons c rest : JS.read_char c (String c rest) = Some rest.
Proof. unfold JS.read_char. now rewrite Ascii.eqb_refl. Qed.

Lemma civil_month_range z :
  1 <= JS.cmonth (JS.civil_from_days z) <= 12.
Proof.
  unfold JS.civil_from_days; cbn [JS.cmonth]. split_tests; div_lia.
Qed.

Lemma civil_day_range z :
  let c := JS.civil_from_days z in
  1 <= JS.cday c <= JS.DaysInMonth (JS.cyear c) (JS.cmonth c).
Proof.
  cbv zeta. unfold JS.civil_from_days, JS.DaysInMonth, JS.is_leap.
  cbn [JS.cyear JS.cmonth JS.cday]. split_tests; div_lia.
Qed.

Lemma civil_year_range z :
  -100000000 <= z <= 100000000 ->
  -271821 <= JS.cyear (JS.civil_from_days z) <= 275760.
Proof.
  intros Hz. unfold JS.civil_from_days; cbn [JS.cyear].
  split_tests; div_lia.
Qed.

(** The day number of the date of a day number is that day number. *)
Lemma days_from_civil_from_days z :
  let c := JS.civil_from_days z in
  JS.days_from_civil (JS.cyear c) (JS.cmonth c) (JS.cday c) = z.
Proof.
  cbv zeta. unfold JS.civil_from_days, JS.days_from_civil.
  cbn [JS.cyear JS.cmonth JS.cday]. split_tests; div_lia.
Qed.

Lemma time_fields t :
  0 <= JS.HourFromTime t <= 23 /\ 0 <= JS.MinFromTime t <= 59 /\
  0 <= JS.SecFromTime t <= 59 /\ 0 <= JS.msFromTime t <= 999 /\
  JS.MakeDate (JS.Day t)
    (JS.MakeTime (JS.HourFromTime t) (JS.MinFromTime t) (JS.SecFromTime t)
       (JS.msFromTime t)) = t.
Proof.
  unfold JS.HourFromTime, JS.MinFromTime, JS.SecFromTime, JS.msFromTime,
    JS.MakeDate, JS.MakeTime, JS.TimeWithinDay, JS.Day, JS.msPerDay.
  repeat split; div_lia.
Qed.

Lemma Day_range t :
  JS.time_value t -> -100000000 <= JS.Day t <= 100000000.
Proof.
  unfold JS.time_value, JS.maxTime, JS.Day, JS.msPerDay. intros H. div_lia.
Qed.

(** A timestamp printed from in-range fields reads back as the time value
    these fields make. *)
Lemma Date_parse_fields y m d h mi sec ms :
  -999999 <= y <= 999999 ->
  1 <= m <= 12 -> 1 <= d <= JS.DaysInMonth y m ->
  0 <= h <= 23 -> 0 <= mi <= 59 -> 0 <= sec <= 59 -> 0 <= ms <= 999 ->
  JS.time_value
    (JS.MakeDate (JS.days_from_civil y m d) (JS.MakeTime h mi sec ms)) ->
  JS.Date_parse
    (JS.year_string y ++ "-" ++ JS.pad 2 m ++ "-" ++ JS.pad 2 d ++ "T" ++
     JS.pad 2 h ++ ":" ++ JS.pad 2 mi ++ ":" ++ JS.pad 2 sec ++ "." ++
     JS.pad 3 ms ++ "Z") =
  Some (JS.MakeDate (JS.days_from_civil y m d) (JS.MakeTime h mi sec ms)).
Proof.
  intros Hy Hm Hd Hh Hmi Hsec Hms Ht.
  assert (Hd31 : d <= 31).
  { unfold JS.DaysInMonth in Hd.
    destruct (m =? 2), (JS.is_leap y),
      ((m =? 4) || (m =? 6) || (m =? 9) || (m =? 11))%bool; lia. }
  unfold JS.Date_parse.
  rewrite read_year_string by assumption. cbn [JS.and_then].
  repeat
    (match goal with
     | |- context [String ?c EmptyString ++ ?rest] =>
         change (String c EmptyString ++ rest) with (String c rest)
     end;
     rewrite read_char_cons; cbn [JS.and_then];
     try (rewrite read_digits_pad by (simpl; lia); cbn [JS.and_then])).
  simpl (0 * _ + _).
  destruct Ht as [Hlo Hhi].
  repeat match goal with
         | |- context [?a <=? ?b] =>
             rewrite (proj2 (Z.leb_le a b)) by assumption || lia
         end.
  reflexivity.
Qed.

(** The timestamp of a time value reads back as that time value. *)
Lemma Date_parse_toISOString t :
  JS.time_value t -> JS.Date_parse (JS.toISOString t) = Some t.
Proof.
  intros Ht.
  destruct (time_fields t) as (Hh & Hmi & Hsec & Hms & Hmake).
  pose proof (civil_year_range (JS.Day t) (Day_range t Ht)) as Hy.
  pose proof (civil_month_range (JS.Day t)) as Hm.
  pose proof (civil_day_range (JS.Day t)) as Hd.
  pose proof (days_from_civil_from_days (JS.Day t)) as Hround.
  cbv zeta in Hd, Hround.
  unfold JS.toISOString, JS.YearFromTime, JS.MonthFromTime, JS.DateFromTime.
  rewrite Date_parse_fields; try assumption; try lia.
  - now rewrite Hround, Hmake.
  - now rewrite Hround, Hmake.
Qed.

(** ** Uploads *)

(** Whatever the storage answers, [uploadAudioFile] leaves exactly one more
    put request in the trace. *)
Lemma uploadAudioFile_puts {Metrics} (env : Env Metrics) this
      file key contentType w :
  uploads
    (trace (after (uploadAudioFile env this file key contentType) w)) =
  snoc (uploads (trace w))
    (uploadParams this file key (contentType_of contentType)
       (clock env (reads w))).
Proof.
  unfold after. rewrite uploadAudioFile_run. cbv zeta.
  destruct (s3_upload env (trace w) _); simpl;
    repeat rewrite uploads_emit; simpl; unfold snoc; now rewrite ?app_nil_r.
Qed.

(** C5. For every payload, key and content type, the put request
    [uploadAudioFile] sends has cache control [max-age=31536000] and, as
    its only metadata, [uploaded-at] with the ISO-8601 timestamp of the
    clock reading taken for the upload: a string that reads back as that
    very time value. *)
Theorem upload_request_headers {Metrics} (env : Env Metrics) this
        file key contentType w :
  let now := clock env (reads w) in
  uploads
    (trace (after (uploadAudioFile env this file key contentType) w)) =
  snoc (uploads (trace w))
    {| PutObjectRequest.Bucket := bucketName this;
       PutObjectRequest.Key := key;
       PutObjectRequest.Body := file;
       PutObjectRequest.ContentType := contentType_of contentType;
       PutObjectRequest.CacheControl := "max-age=31536000";
       PutObjectRequest.Metadata := [("uploaded-at", JS.toISOString now)] |}
  /\ (JS.time_value now -> JS.Date_parse (JS.toISOString now) = Some now).
Proof.
  cbv zeta. split.
  - apply uploadAudioFile_puts.
  - apply Date_parse_toISOString.
Qed.

Lemma upload_request_headers_witness :
  JS.time_value 1700000000123
  /\ JS.Date_parse (JS.toISOString 1700000000123) = Some 1700000000123.
Proof.
  assert (H : JS.time_value 1700000000123)
    by (unfold JS.time_value, JS.maxTime; lia).
  split; [exact H |].
  exact (proj2 (upload_request_headers (healthy ticking_clock) sample_service
                  [] "tracks/t1/medium.mp3" None world0) H).
Defined.

Example upload_resolves :
  uploadAudioFile (healthy ticking_clock) sample_service
    [] "tracks/t1/medium.mp3" None world0 =
  (inr {| CDNUploadResult.url := "https://s3.test/tracks/t1/medium.mp3";
          CDNUploadResult.cdnUrl :=
            "https://cdn.lyricsflip.test/tracks/t1/medium.mp3";
          CDNUploadResult.key := "tracks/t1/medium.mp3";
          CDNUploadResult.etag := "etag-1" |},
   {| reads := 1;
      trace :=
        [S3Upload
           {| PutObjectRequest.Bucket := Some "lyricsflip-audio";
              PutObjectRequest.Key := "tracks/t1/medium.mp3";
              PutObjectRequest.Body := [];
              PutObjectRequest.ContentType := "audio/mpeg";
              PutObjectRequest.CacheControl := "max-age=31536000";
              PutObjectRequest.Metadata :=
                [("uploaded-at", "2023-11-14T22:13:20.123Z")] |}] |}).
Proof. reflexivity. Qed.

Lemma signed_url_request_witness :
  settled
    (generateStreamingUrl (healthy ticking_clock) sample_service "track123"
       (Some {| quality := Some high; format := Some flac; bitrate := None |}))
    world0 =
  inr "https://s3.test/tracks/track123/high.flac?X-Amz-Expires=3600".
Proof.
  exact (proj1 (proj2
    (signed_url_request (healthy ticking_clock) sample_service "track123"
       (Some {| quality := Some high; format := Some flac; bitrate := None |})
       world0)) _ eq_refl).
Defined.

(** * Further properties of the service *)

Lemma logs_emit tr e :
  logs (snoc tr e) =
  (logs tr ++ match e with
              | LoggerLog _ | LoggerError _ _ => [e]
              | _ => []
              end)%list.
Proof.
  unfold logs, snoc. rewrite flat_map_app. simpl. now rewrite app_nil_r.
Qed.

(** Unfolds a call to its step-by-step equation and splits on the answer
    of the SDK. *)
Tactic Notation "by_run" uconstr(run) :=
  unfold settled, after; rewrite run; cbv zeta;
  match goal with
  | |- context [match ?answer with inl _ => _ | inr _ => _ end] =>
      destruct answer eqn:?
  end; simpl.

Ltac observe :=
  rewrite ?uploads_emit, ?signings_emit, ?invalidations_emit,
    ?metric_queries_emit, ?logs_emit; simpl; unfold snoc;
  rewrite ?app_nil_r.

(** ** The service raises no error of its own *)

(** X1. [uploadAudioFile], [generateStreamingUrl] and [invalidateCDNCache]
    reject with an error exactly when the SDK call they make throws that
    error: the service adds no failure of its own. *)
Theorem rejects_only_when_sdk_fails {Metrics} (env : Env Metrics) this w e :
  (forall file key contentType,
      settled (uploadAudioFile env this file key contentType) w = inl e <->
      s3_upload env (trace w)
        (uploadParams this file key (contentType_of contentType)
           (clock env (reads w))) = inl e)
  /\ (forall trackId options,
      settled (generateStreamingUrl env this trackId options) w = inl e <->
      s3_getSignedUrl env (trace w) "getObject"
        {| SignedUrlParams.Bucket := bucketName this;
           SignedUrlParams.Key :=
             "tracks/" ++ trackId ++ "/" ++
             Quality_str (quality_of options) ++ "." ++
             Format_str (format_of options);
           SignedUrlParams.Expires := 3600;
           SignedUrlParams.ResponseContentType :=
             "audio/" ++ Format_str (format_of options);
           SignedUrlParams.ResponseCacheControl := "max-age=3600" |} =
      inl e)
  /\ (forall paths,
      settled (invalidateCDNCache env this paths) w = inl e <->
      cloudFront_createInvalidation env (trace w)
        (invalidationParams (configService this "CLOUDFRONT_DISTRIBUTION_ID")
           paths (clock env (reads w))) = inl e).
Proof.
  split; [| split]; intros.
  - by_run uploadAudioFile_run; split; congruence.
  - by_run generateStreamingUrl_run; split; congruence.
  - by_run invalidateCDNCache_run; split; congruence.
Qed.

(** X2. [getStreamingMetrics] resolves to [null] exactly when the metrics
    backend throws, and to the backend's answer, untouched, exactly when it
    answers. *)
Theorem metrics_null_iff_failure {Metrics} (env : Env Metrics) this
        trackId w :
  let answer :=
    cloudWatch_getMetricStatistics env (trace w)
      (params this (clock env (reads w)) (clock env (S (reads w)))) in
  (settled (getStreamingMetrics env this trackId) w = inr None <->
   exists e, answer = inl e)
  /\ (forall metrics,
      settled (getStreamingMetrics env this trackId) w = inr (Some metrics) <->
      answer = inr metrics).
Proof.
  cbv zeta. split; [| intros metrics].
  - by_run getStreamingMetrics_run; split.
    + eauto.
    + reflexivity.
    + discriminate.
    + intros [e' He']. discriminate.
  - by_run getStreamingMetrics_run; split; congruence.
Qed.

(** ** What an upload resolves to *)

(** X3. When the storage accepts the put, [uploadAudioFile] resolves to the
    location, key and ETag the storage returned and to the CDN URL
    [https://{cdnDomain}/{key}] of the key it was given; it writes no log
    line. *)
Theorem upload_result {Metrics} (env : Env Metrics) this
        file key contentType w result :
  s3_upload env (trace w)
    (uploadParams this file key (contentType_of contentType)
       (clock env (reads w))) = inr result ->
  settled (uploadAudioFile env this file key contentType) w =
  inr {| CDNUploadResult.url := SendData.Location result;
         CDNUploadResult.cdnUrl :=
           "https://" ++ JS.interp (cdnDomain this) ++ "/" ++ key;
         CDNUploadResult.key := SendData.Key result;
         CDNUploadResult.etag := SendData.ETag result |}
  /\ logs (trace (after (uploadAudioFile env this file key contentType) w)) =
     logs (trace w).
Proof.
  intros H. split; by_run uploadAudioFile_run; try congruence.
  now observe.
Qed.

Lemma upload_result_witness :
  settled (uploadAudioFile (healthy ticking_clock) sample_service
             [] "tracks/t1/high.flac" (Some "audio/flac")) world0 =
  inr {| CDNUploadResult.url := "https://s3.test/tracks/t1/high.flac";
         CDNUploadResult.cdnUrl :=
           "https://cdn.lyricsflip.test/tracks/t1/high.flac";
         CDNUploadResult.key := "tracks/t1/high.flac";
         CDNUploadResult.etag := "etag-1" |}.
Proof.
  exact (proj1 (upload_result (healthy ticking_clock) sample_service
                  [] "tracks/t1/high.flac" (Some "audio/flac") world0
                  _ eq_refl)).
Defined.

(** X4. The put request carries the content type the caller gave, and
    [audio/mpeg] when the caller gave none; the key and the payload go
    through as given. *)
Theorem upload_content_type {Metrics} (env : Env Metrics) this file key w :
  let sent contentType :=
    map (fun p => (PutObjectRequest.Key p, PutObjectRequest.Body p,
                   PutObjectRequest.ContentType p))
      (uploads
         (trace (after (uploadAudioFile env this file key contentType) w))) in
  let before :=
    map (fun p => (PutObjectRequest.Key p, PutObjectRequest.Body p,
                   PutObjectRequest.ContentType p))
      (uploads (trace w)) in
  sent None = snoc before (key, file, "audio/mpeg")
  /\ forall contentType,
      sent (Some contentType) = snoc before (key, file, contentType).
Proof.
  cbv beta zeta. split; intros; rewrite uploadAudioFile_puts;
    unfold snoc; now rewrite map_app.
Qed.

(** ** Logging *)

(** X5. A failed SDK call is logged exactly once, after the request, with
    the error and a message that names the key or the track id; nothing
    else is added to the trace. *)
Theorem failure_logged_once {Metrics} (env : Env Metrics) this w e :
  (forall file key contentType,
      let request :=
        uploadParams this file key (contentType_of contentType)
          (clock env (reads w)) in
      s3_upload env (trace w) request = inl e ->
      trace (after (uploadAudioFile env this file key contentType) w) =
      snoc (snoc (trace w) (S3Upload request))
        (LoggerError ("Failed to upload audio file " ++ key ++ ":") e))
  /\ (forall trackId options,
      let request :=
        {| SignedUrlParams.Bucket := bucketName this;
           SignedUrlParams.Key :=
             "tracks/" ++ trackId ++ "/" ++
             Quality_str (quality_of options) ++ "." ++
             Format_str (format_of options);
           SignedUrlParams.Expires := 3600;
           SignedUrlParams.ResponseContentType :=
             "audio/" ++ Format_str (format_of options);
           SignedUrlParams.ResponseCacheControl := "max-age=3600" |} in
      s3_getSignedUrl env (trace w) "getObject" request = inl e ->
      trace (after (generateStreamingUrl env this trackId options) w) =
      snoc (snoc (trace w) (S3GetSignedUrl "getObject" request))
        (LoggerError
           ("Failed to generate streaming URL for track " ++ trackId ++ ":")
           e))
  /\ (forall paths,
      let request :=
        invalidationParams (configService this "CLOUDFRONT_DISTRIBUTION_ID")
          paths (clock env (reads w)) in
      cloudFront_createInvalidation env (trace w) request = inl e ->
      trace (after (invalidateCDNCache env this paths) w) =
      snoc (snoc (trace w) (CreateInvalidation request))
        (LoggerError "Failed to invalidate CDN cache:" e))
  /\ (forall trackId,
      let request :=
        params this (clock env (reads w)) (clock env (S (reads w))) in
      cloudWatch_getMetricStatistics env (trace w) request = inl e ->
      trace (after (getStreamingMetrics env this trackId) w) =
      snoc (snoc (trace w) (GetMetricStatistics request))
        (LoggerError
           ("Failed to get streaming metrics for track " ++ trackId ++ ":")
           e)).
Proof.
  unfold after. split; [| split; [| split]]; cbv zeta.
  - intros file key contentType H.
    rewrite uploadAudioFile_run. cbv zeta. now rewrite H.
  - intros trackId options H.
    rewrite generateStreamingUrl_run. cbv zeta. now rewrite H.
  - intros paths H.
    rewrite invalidateCDNCache_run. cbv zeta. now rewrite H.
  - intros trackId H.
    rewrite getStreamingMetrics_run. cbv zeta. now rewrite H.
Qed.

Lemma failure_logged_once_witness :
  trace (after (invalidateCDNCache (failing network_down) sample_service
                  ["tracks/t1/medium.mp3"]) world0) =
  [ CreateInvalidation
      (invalidationParams (Some "E2EXAMPLE") ["tracks/t1/medium.mp3"]
         1700000000123);
    LoggerError "Failed to invalidate CDN cache:" network_down ]
  /\ trace (after (getStreamingMetrics (failing network_down) sample_service
                     "t1") world0) =
     [ GetMetricStatistics
         (params sample_service 1700000000123 1700000000124);
       LoggerError "Failed to get streaming metrics for track t1:"
         network_down ].
Proof.
  destruct (failure_logged_once (failing network_down) sample_service world0
              network_down) as (_ & _ & Hinvalidate & Hmetrics).
  split.
  - exact (Hinvalidate ["tracks/t1/medium.mp3"] eq_refl).
  - exact (Hmetrics "t1" eq_refl).
Defined.

(** X6. When the control plane accepts the job, [invalidateCDNCache]
    resolves and writes one log line that lists the paths as given, joined
    by a comma and a space; [generateStreamingUrl] writes no log line when
    the signer answers. *)
Theorem success_logging {Metrics} (env : Env Metrics) this w :
  (forall paths result,
      cloudFront_createInvalidation env (trace w)
        (invalidationParams (configService this "CLOUDFRONT_DISTRIBUTION_ID")
           paths (clock env (reads w))) = inr result ->
      settled (invalidateCDNCache env this paths) w = inr tt
      /\ logs (trace (after (invalidateCDNCache env this paths) w)) =
         snoc (logs (trace w))
           (LoggerLog ("CDN cache invalidated for paths: " ++
                       String.concat ", " paths)))
  /\ (forall trackId options signedUrl,
      settled (generateStreamingUrl env this trackId options) w =
      inr signedUrl ->
      logs (trace (after (generateStreamingUrl env this trackId options) w)) =
      logs (trace w)).
Proof.
  split.
  - intros paths result H. unfold settled, after.
    rewrite invalidateCDNCache_run. cbv zeta. rewrite H. simpl.
    split; [reflexivity | now observe].
  - intros trackId options signedUrl. unfold settled, after.
    rewrite generateStreamingUrl_run. cbv zeta.
    destruct (s3_getSignedUrl env (trace w) "getObject" _); simpl;
      [discriminate | intros _; now observe].
Qed.

Lemma success_logging_witness :
  logs (trace (after (invalidateCDNCache (healthy ticking_clock)
                        sample_service ["a/b"; "c"]) world0)) =
  [LoggerLog "CDN cache invalidated for paths: a/b, c"]
  /\ logs (trace (after (generateStreamingUrl (healthy ticking_clock)
                           sample_service "t1" None) world0)) = [].
Proof.
  destruct (success_logging (healthy ticking_clock) sample_service world0)
    as [Hinvalidate Hsign].
  split.
  - exact (proj2 (Hinvalidate ["a/b"; "c"] _ eq_refl)).
  - exact (Hsign "t1" None _ eq_refl).
Defined.

(** ** What each operation leaves alone *)

(** What each operation leaves unchanged of the world. *)
Lemma operation_footprints_free {Metrics} (env : Env Metrics) this w :
  (forall file key contentType,
      let w' := after (uploadAudioFile env this file key contentType) w in
      signings (trace w') = signings (trace w)
      /\ invalidations (trace w') = invalidations (trace w)
      /\ metric_queries (trace w') = metric_queries (trace w)
      /\ reads w' = S (reads w)
      /\ exists added, trace w' = (trace w ++ added)%list)
  /\ (forall trackId options,
      let w' := after (generateStreamingUrl env this trackId options) w in
      uploads (trace w') = uploads (trace w)
      /\ invalidations (trace w') = invalidations (trace w)
      /\ metric_queries (trace w') = metric_queries (trace w)
      /\ reads w' = reads w
      /\ exists added, trace w' = (trace w ++ added)%list)
  /\ (forall paths,
      let w' := after (invalidateCDNCache env this paths) w in
      uploads (trace w') = uploads (trace w)
      /\ signings (trace w') = signings (trace w)
      /\ metric_queries (trace w') = metric_queries (trace w)
      /\ reads w' = S (reads w)
      /\ exists added, trace w' = (trace w ++ added)%list)
  /\ (forall trackId,
      let w' := after (getStreamingMetrics env this trackId) w in
      uploads (trace w') = uploads (trace w)
      /\ signings (trace w') = signings (trace w)
      /\ invalidations (trace w') = invalidations (trace w)
      /\ reads w' = S (S (reads w))
      /\ exists added, trace w' = (trace w ++ added)%list).
Proof.
  cbv zeta. split; [| split; [| split]]; intros.
  - by_run uploadAudioFile_run; observe; repeat split; unfold snoc;
      rewrite <- ?app_assoc; eauto.
  - by_run generateStreamingUrl_run; observe; repeat split; unfold snoc;
      rewrite <- ?app_assoc; eauto.
  - by_run invalidateCDNCache_run; observe; repeat split; unfold snoc;
      rewrite <- ?app_assoc; eauto.
  - by_run getStreamingMetrics_run; observe; repeat split; unfold snoc;
      rewrite <- ?app_assoc; eauto.
Qed.

(** X7. Each operation talks to its own SDK call only and keeps the trace
    it found as a prefix: an upload signs, invalidates and measures
    nothing and reads the clock once; signing a URL uploads, invalidates
    and measures nothing and never reads the clock; an invalidation
    uploads, signs and measures nothing and reads the clock once; a metrics
    query uploads, signs and invalidates nothing and reads the clock
    twice. *)
Theorem operation_footprints {Metrics} (env : Env Metrics) this w :
  (forall file key contentType,
      let w' := after (uploadAudioFile env this file key contentType) w in
      signings (trace w') = signings (trace w)
      /\ invalidations (trace w') = invalidations (trace w)
      /\ metric_queries (trace w') = metric_queries (trace w)
      /\ reads w' = S (reads w)
      /\ exists added, trace w' = (trace w ++ added)%list)
  /\ (forall trackId options,
      let w' := after (generateStreamingUrl env this trackId options) w in
      uploads (trace w') = uploads (trace w)
      /\ invalidations (trace w') = invalidations (trace w)
      /\ metric_queries (trace w') = metric_queries (trace w)
      /\ reads w' = reads w
      /\ exists added, trace w' = (trace w ++ added)%list)
  /\ (forall paths,
      let w' := after (invalidateCDNCache env this paths) w in
      uploads (trace w') = uploads (trace w)
      /\ signings (trace w') = signings (trace w)
      /\ metric_queries (trace w') = metric_queries (trace w)
      /\ reads w' = S (reads w)
      /\ exists added, trace w' = (trace w ++ added)%list)
  /\ (forall trackId,
      let w' := after (getStreamingMetrics env this trackId) w in
      uploads (trace w') = uploads (trace w)
      /\ signings (trace w') = signings (trace w)
      /\ invalidations (trace w') = invalidations (trace w)
      /\ reads w' = S (S (reads w))
      /\ exists added, trace w' = (trace w ++ added)%list).
Proof. exact (operation_footprints_free env this w). Qed.

(** ** The shape of an invalidation batch *)

(** X8. In the batch [invalidateCDNCache] submits, the quantity is the
    number of items, the items come in the order of the paths, and taking
    the first character off each item gives the paths back: no path is
    dropped, merged or reordered. *)
Theorem invalidation_items_recover_paths {Metrics} (env : Env Metrics) this
        paths w :
  exists request,
    invalidations (trace (after (invalidateCDNCache env this paths) w)) =
    snoc (invalidations (trace w)) request
    /\ let batch :=
         Invalidation.paths (Invalidation.InvalidationBatch request) in
       Invalidation.Quantity batch =
       Z.of_nat (List.length (Invalidation.Items batch))
       /\ map behead (Invalidation.Items batch) = paths
       /\ forall i, nth_error (Invalidation.Items batch) i =
                    option_map (fun path => "/" ++ path) (nth_error paths i).
Proof.
  eexists. split; [apply invalidateCDNCache_submits |].
  cbv zeta. simpl. split; [| split].
  - now rewrite length_map.
  - rewrite map_map. simpl. apply map_id.
  - intros i. apply nth_error_map.
Qed.

(** ** The metrics window *)

(** Whatever the backend answers, [getStreamingMetrics] leaves exactly one
    more query in the trace. *)
Lemma getStreamingMetrics_queries {Metrics} (env : Env Metrics) this
      trackId w :
  metric_queries (trace (after (getStreamingMetrics env this trackId) w)) =
  snoc (metric_queries (trace w))
    (params this (clock env (reads w)) (clock env (S (reads w)))).
Proof. by_run getStreamingMetrics_run; now observe. Qed.

(** X9. The window [getStreamingMetrics] asks for is 24 hours plus the time
    the clock moved between its two readings: at least 24 hours whenever
    the clock does not run backwards, and never empty then. *)
Theorem metrics_window {Metrics} (env : Env Metrics) this trackId w :
  clock env (reads w) <= clock env (S (reads w)) ->
  exists query,
    metric_queries
      (trace (after (getStreamingMetrics env this trackId) w)) =
    snoc (metric_queries (trace w)) query
    /\ MetricStatistics.EndTime query - MetricStatistics.StartTime query =
       86400000 + (clock env (S (reads w)) - clock env (reads w))
    /\ 86400000 <=
       MetricStatistics.EndTime query - MetricStatistics.StartTime query
    /\ MetricStatistics.StartTime query < MetricStatistics.EndTime query.
Proof.
  intros Hclock. eexists. split.
  - apply getStreamingMetrics_queries.
  - cbn [MetricStatistics.EndTime MetricStatistics.StartTime params]. lia.
Qed.

Lemma metrics_window_witness :
  exists query,
    metric_queries
      (trace (after (getStreamingMetrics (healthy ticking_clock)
                       sample_service "t1") world0)) = [query]
    /\ MetricStatistics.EndTime query - MetricStatistics.StartTime query =
       86400001.
Proof.
  assert (H : clock (healthy ticking_clock) (reads world0) <=
              clock (healthy ticking_clock) (S (reads world0)))
    by (vm_compute; discriminate).
  destruct (metrics_window (healthy ticking_clock) sample_service "t1"
              world0 H) as (query & Hsent & Hwidth & _).
  exists query. split; [exact Hsent | exact Hwidth].
Defined.

(** ** Keys do not collide *)

Lemma append_cancel_l (a x y : string) : a ++ x = a ++ y -> x = y.
Proof.
  induction a as [| c a IH]; simpl; [trivial |].
  intros [= H]. now apply IH.
Qed.

Lemma has_slash_app a b : has_slash (a ++ String "/" b) = true.
Proof.
  induction a as [| c a IH]; simpl; [reflexivity |].
  rewrite IH. apply orb_true_r.
Qed.

Lemma variant_no_slash q f :
  has_slash (Quality_str q ++ "." ++ Format_str f) = false.
Proof. destruct q, f; reflexivity. Qed.

Lemma variant_inj q1 f1 q2 f2 :
  Quality_str q1 ++ "." ++ Format_str f1 =
  Quality_str q2 ++ "." ++ Format_str f2 ->
  q1 = q2 /\ f1 = f2.
Proof. destruct q1, f1, q2, f2; simpl; intros H; now try discriminate H. Qed.

(** The part of a key after the track id has one slash, at its start, so
    it tells where the track id ends. *)
Lemma key_tail_splits : forall a b q1 f1 q2 f2,
  a ++ String "/" (Quality_str q1 ++ "." ++ Format_str f1) =
  b ++ String "/" (Quality_str q2 ++ "." ++ Format_str f2) ->
  a = b /\ q1 = q2 /\ f1 = f2.
Proof.
  induction a as [| c a IH]; intros [| d b] q1 f1 q2 f2 H.
  - change (String "/" (Quality_str q1 ++ "." ++ Format_str f1) =
            String "/" (Quality_str q2 ++ "." ++ Format_str f2)) in H.
    injection H as H. now apply variant_inj in H.
  - change (String "/" (Quality_str q1 ++ "." ++ Format_str f1) =
            String d (b ++ String "/" (Quality_str q2 ++ "." ++
                                       Format_str f2))) in H.
    injection H as _ H. apply (f_equal has_slash) in H.
    pose proof (eq_trans (eq_sym (variant_no_slash q1 f1))
                  (eq_trans H (has_slash_app b _))) as E.
    discriminate E.
  - change (String c (a ++ String "/" (Quality_str q1 ++ "." ++
                                       Format_str f1)) =
            String "/" (Quality_str q2 ++ "." ++ Format_str f2)) in H.
    injection H as _ H. apply (f_equal has_slash) in H.
    pose proof (eq_trans (eq_sym (variant_no_slash q2 f2))
                  (eq_trans (eq_sym H) (has_slash_app a _))) as E.
    discriminate E.
  - change (String c (a ++ String "/" (Quality_str q1 ++ "." ++
                                       Format_str f1)) =
            String d (b ++ String "/" (Quality_str q2 ++ "." ++
                                       Format_str f2))) in H.
    injection H as -> H. apply IH in H. destruct H as (-> & -> & ->).
    auto.
Qed.

(** X10. Two calls of [generateCDNStreamingUrl] on one service that
    resolve to the same URL were made for the same track id, the same
    quality and the same format, whatever characters the track ids hold:
    distinct variants never share a URL. *)
Theorem cdn_url_injective this trackId1 options1 trackId2 options2 w1 w2 :
  settled (generateCDNStreamingUrl this trackId1 options1) w1 =
  settled (generateCDNStreamingUrl this trackId2 options2) w2 ->
  trackId1 = trackId2
  /\ quality_of options1 = quality_of options2
  /\ format_of options1 = format_of options2.
Proof.
  unfold settled, generateCDNStreamingUrl, ret. simpl fst.
  intros [= H].
  apply append_cancel_l in H. injection H as H.
  now apply key_tail_splits in H.
Qed.

Lemma cdn_url_injective_witness :
  "a/b" = "a/b"
  /\ quality_of None =
     quality_of (Some {| quality := Some medium; format := Some mp3;
                         bitrate := Some 320 |})
  /\ format_of None =
     format_of (Some {| quality := Some medium; format := Some mp3;
                        bitrate := Some 320 |}).
Proof.
  exact (cdn_url_injective sample_service "a/b" None "a/b"
           (Some {| quality := Some medium; format := Some mp3;
                    bitrate := Some 320 |})
           world0 world0 eq_refl).
Defined.

(** ** Options *)

(** X11. [bitrate] has no effect: two option objects with the same quality
    and format make [generateStreamingUrl] and [generateCDNStreamingUrl]
    behave the same, request, result and log alike. *)
Theorem bitrate_ignored {Metrics} (env : Env Metrics) this
        trackId options1 options2 w :
  quality options1 = quality options2 ->
  format options1 = format options2 ->
  generateStreamingUrl env this trackId (Some options1) w =
  generateStreamingUrl env this trackId (Some options2) w
  /\ generateCDNStreamingUrl this trackId (Some options1) w =
     generateCDNStreamingUrl this trackId (Some options2) w.
Proof.
  intros Hq Hf.
  rewrite !generateStreamingUrl_run. cbv zeta.
  unfold generateCDNStreamingUrl, quality_of, format_of.
  rewrite Hq, Hf. split; reflexivity.
Qed.

Lemma bitrate_ignored_witness :
  generateStreamingUrl (healthy ticking_clock) sample_service "t1"
    (Some {| quality := Some low; format := None; bitrate := Some 64 |})
    world0 =
  generateStreamingUrl (healthy ticking_clock) sample_service "t1"
    (Some {| quality := Some low; format := None; bitrate := Some 320 |})
    world0.
Proof.
  exact (proj1 (bitrate_ignored (healthy ticking_clock) sample_service "t1"
                  {| quality := Some low; format := None; bitrate := Some 64 |}
                  {| quality := Some low; format := None; bitrate := Some 320 |}
                  world0 eq_refl eq_refl)).
Defined.

(** X12. For any options, given in full, in part or not at all, the URL
    [generateCDNStreamingUrl] resolves to ends with the key that
    [generateStreamingUrl] signs for the same arguments; with no options it
    ends with [tracks/{trackId}/medium.mp3], and a missing quality or
    format is taken as medium or mp3. *)
Theorem cdn_url_follows_signed_key {Metrics} (env : Env Metrics) this
        trackId w w' :
  (forall options,
      exists request,
        signings
          (trace (after (generateStreamingUrl env this trackId options) w)) =
        snoc (signings (trace w)) ("getObject", request)
        /\ settled (generateCDNStreamingUrl this trackId options) w' =
           inr ("https://" ++ JS.interp (cdnDomain this) ++ "/" ++
                SignedUrlParams.Key request))
  /\ settled (generateCDNStreamingUrl this trackId None) w' =
     inr ("https://" ++ JS.interp (cdnDomain this) ++ "/tracks/" ++
          trackId ++ "/medium.mp3")
  /\ (forall f b,
      settled (generateCDNStreamingUrl this trackId
                 (Some {| quality := None; format := Some f; bitrate := b |}))
        w' =
      inr ("https://" ++ JS.interp (cdnDomain this) ++ "/tracks/" ++
           trackId ++ "/medium." ++ Format_str f))
  /\ (forall q b,
      settled (generateCDNStreamingUrl this trackId
                 (Some {| quality := Some q; format := None; bitrate := b |}))
        w' =
      inr ("https://" ++ JS.interp (cdnDomain this) ++ "/tracks/" ++
           trackId ++ "/" ++ Quality_str q ++ ".mp3")).
Proof.
  split; [| repeat split].
  intros options. eexists. split.
  - apply generateStreamingUrl_signs.
  - reflexivity.
Qed.

(** ** Uploads and URLs together *)

Lemma upload_result_of_answer {Metrics} (env : Env Metrics) this
      file key contentType w result :
  s3_upload env (trace w)
    (uploadParams this file key (contentType_of contentType)
       (clock env (reads w))) = inr result ->
  settled (uploadAudioFile env this file key contentType) w =
  inr {| CDNUploadResult.url := SendData.Location result;
         CDNUploadResult.cdnUrl :=
           "https://" ++ JS.interp (cdnDomain this) ++ "/" ++ key;
         CDNUploadResult.key := SendData.Key result;
         CDNUploadResult.etag := SendData.ETag result |}.
Proof.
  intros H. unfold settled. rewrite uploadAudioFile_run. cbv zeta.
  now rewrite H.
Qed.

(** X13. An upload stored under the key of a track variant resolves to a
    [cdnUrl] that is the very URL [generateCDNStreamingUrl] gives for that
    variant. *)
Theorem upload_cdn_url_is_streaming_url {Metrics} (env : Env Metrics) this
        trackId q f b file contentType w w' result :
  let key := "tracks/" ++ trackId ++ "/" ++ Quality_str q ++ "." ++
             Format_str f in
  s3_upload env (trace w)
    (uploadParams this file key (contentType_of contentType)
       (clock env (reads w))) = inr result ->
  exists uploaded,
    settled (uploadAudioFile env this file key contentType) w = inr uploaded
    /\ settled
         (generateCDNStreamingUrl this trackId
            (Some {| quality := Some q; format := Some f; bitrate := b |}))
         w' =
       inr (CDNUploadResult.cdnUrl uploaded).
Proof.
  cbv zeta. intros H. eexists. split.
  - apply (upload_result_of_answer env this _ _ _ _ _ H).
  - reflexivity.
Qed.

Lemma upload_cdn_url_is_streaming_url_witness :
  exists uploaded,
    settled (uploadAudioFile (healthy ticking_clock) sample_service
               [] "tracks/t1/high.flac" None) world0 = inr uploaded
    /\ settled
         (generateCDNStreamingUrl sample_service "t1"
            (Some {| quality := Some high; format := Some flac;
                     bitrate := None |})) world0 =
       inr (CDNUploadResult.cdnUrl uploaded).
Proof.
  exact (upload_cdn_url_is_streaming_url (healthy ticking_clock)
           sample_service "t1" high flac None [] None world0 world0
           _ eq_refl).
Defined.

(** X14. An upload followed by the invalidation of its key: when the
    upload fails the whole rejects with that error and no invalidation is
    ever submitted; when it succeeds exactly one invalidation is submitted,
    for the single item [/{key}], stamped with the clock reading that
    follows the upload's. *)
Theorem upload_then_invalidate {Metrics} (env : Env Metrics) this
        file key contentType w :
  let both :=
    bind (uploadAudioFile env this file key contentType)
      (fun _ => invalidateCDNCache env this [key]) in
  let put :=
    uploadParams this file key (contentType_of contentType)
      (clock env (reads w)) in
  (forall e,
      s3_upload env (trace w) put = inl e ->
      settled both w = inl e
      /\ invalidations (trace (after both w)) = invalidations (trace w))
  /\ (forall result,
      s3_upload env (trace w) put = inr result ->
      invalidations (trace (after both w)) =
      snoc (invalidations (trace w))
        {| Invalidation.DistributionId :=
             configService this "CLOUDFRONT_DISTRIBUTION_ID";
           Invalidation.InvalidationBatch :=
             {| Invalidation.CallerReference :=
                  "invalidation-" ++
                  JS.Number_toString (clock env (S (reads w)));
                Invalidation.paths :=
                  {| Invalidation.Quantity := 1;
                     Invalidation.Items := ["/" ++ key] |} |} |}
      /\ uploads (trace (after both w)) = snoc (uploads (trace w)) put).
Proof.
  cbv zeta. split.
  - intros e H. unfold settled, after, bind.
    rewrite uploadAudioFile_run. cbv zeta. rewrite H. simpl.
    split; [reflexivity | now observe].
  - intros result H. unfold after, bind.
    rewrite uploadAudioFile_run. cbv zeta. rewrite H.
    rewrite invalidateCDNCache_run. cbv zeta.
    match goal with
    | |- context [match ?answer with inl _ => _ | inr _ => _ end] =>
        destruct answer
    end; cbn [snd fst trace reads emit]; observe; split; reflexivity.
Qed.

Lemma upload_then_invalidate_witness :
  settled
    (bind (uploadAudioFile (failing network_down) sample_service
             [] "tracks/t1/medium.mp3" None)
       (fun _ => invalidateCDNCache (failing network_down) sample_service
                   ["tracks/t1/medium.mp3"])) world0 = inl network_down
  /\ map (fun r => Invalidation.Items
                     (Invalidation.paths (Invalidation.InvalidationBatch r)))
       (invalidations
          (trace (after
             (bind (uploadAudioFile (healthy ticking_clock) sample_service
                      [] "tracks/t1/medium.mp3" None)
                (fun _ => invalidateCDNCache (healthy ticking_clock)
                            sample_service ["tracks/t1/medium.mp3"]))
             world0))) =
     [["/tracks/t1/medium.mp3"]].
Proof.
  split.
  - exact (proj1 (proj1 (upload_then_invalidate (failing network_down)
                           sample_service [] "tracks/t1/medium.mp3" None
                           world0) network_down eq_refl)).
  - exact (f_equal
             (map (fun r => Invalidation.Items
                              (Invalidation.paths
                                 (Invalidation.InvalidationBatch r))))
             (proj1 (proj2 (upload_then_invalidate (healthy ticking_clock)
                              sample_service [] "tracks/t1/medium.mp3" None
                              world0) _ eq_refl))).
Defined.

(** ** Configuration *)

(** X15. In a service built by the constructor, puts and signed URLs name
    the same bucket, the one configured as AWS_S3_BUCKET; invalidations and
    metric queries name the same distribution, the one configured as
    CLOUDFRONT_DISTRIBUTION_ID; the region is the configured AWS_REGION, or
    us-east-1 when none is configured. *)
Theorem constructor_wiring {Metrics} (env : Env Metrics)
        (config : ConfigService) w :
  let service := constructor config in
  (forall file key contentType,
      map PutObjectRequest.Bucket
        (uploads
           (trace (after (uploadAudioFile env service file key contentType)
                     w))) =
      snoc (map PutObjectRequest.Bucket (uploads (trace w)))
        (config "AWS_S3_BUCKET"))
  /\ (forall trackId options,
      map (fun s => SignedUrlParams.Bucket (snd s))
        (signings
           (trace (after (generateStreamingUrl env service trackId options)
                     w))) =
      snoc (map (fun s => SignedUrlParams.Bucket (snd s))
              (signings (trace w)))
        (config "AWS_S3_BUCKET"))
  /\ (forall paths,
      map Invalidation.DistributionId
        (invalidations
           (trace (after (invalidateCDNCache env service paths) w))) =
      snoc (map Invalidation.DistributionId (invalidations (trace w)))
        (config "CLOUDFRONT_DISTRIBUTION_ID"))
  /\ (forall trackId,
      map MetricStatistics.Dimensions
        (metric_queries
           (trace (after (getStreamingMetrics env service trackId) w))) =
      snoc (map MetricStatistics.Dimensions (metric_queries (trace w)))
        [ {| MetricStatistics.Name := "DistributionId";
             MetricStatistics.Value :=
               config "CLOUDFRONT_DISTRIBUTION_ID" |} ])
  /\ region (awsConfig service) =
     Some (match config "AWS_REGION" with
           | Some configured => configured
           | None => "us-east-1"
           end).
Proof.
  cbv zeta. split; [| split; [| split; [| split]]]; intros.
  - rewrite uploadAudioFile_puts. unfold snoc. now rewrite map_app.
  - rewrite generateStreamingUrl_signs. unfold snoc. now rewrite map_app.
  - rewrite invalidateCDNCache_submits. unfold snoc. now rewrite map_app.
  - rewrite getStreamingMetrics_queries. unfold snoc. now rewrite map_app.
  - unfold constructor, get_or. cbn [awsConfig region].
    destruct (config "AWS_REGION"); reflexivity.
Qed.

(** X16. With no CDN_DOMAIN configured nothing fails: the CDN URL of a
    stream and the [cdnUrl] of an accepted upload are built all the same,
    with the text "undefined" where the domain goes. *)
Theorem unset_cdn_domain {Metrics} (env : Env Metrics)
        (config : ConfigService) w :
  config "CDN_DOMAIN" = None ->
  (forall trackId options,
      settled (generateCDNStreamingUrl (constructor config) trackId options)
        w =
      inr ("https://undefined/tracks/" ++ trackId ++ "/" ++
           Quality_str (quality_of options) ++ "." ++
           Format_str (format_of options)))
  /\ (forall file key contentType result,
      s3_upload env (trace w)
        (uploadParams (constructor config) file key
           (contentType_of contentType) (clock env (reads w))) =
      inr result ->
      exists uploaded,
        settled (uploadAudioFile env (constructor config) file key
                   contentType) w = inr uploaded
        /\ CDNUploadResult.cdnUrl uploaded = "https://undefined/" ++ key).
Proof.
  intros Hunset. split.
  - intros trackId options. unfold settled, generateCDNStreamingUrl, ret.
    cbn [fst constructor cdnDomain]. rewrite Hunset. reflexivity.
  - intros file key contentType result H. eexists. split.
    + apply (upload_result_of_answer env _ _ _ _ _ _ H).
    + cbn [CDNUploadResult.cdnUrl constructor cdnDomain].
      rewrite Hunset. reflexivity.
Qed.

Lemma unset_cdn_domain_witness :
  settled (generateCDNStreamingUrl (constructor (fun _ => None)) "t1" None)
    world0 =
  inr "https://undefined/tracks/t1/medium.mp3".
Proof.
  exact (proj1 (unset_cdn_domain (healthy ticking_clock) (fun _ => None)
                  world0 eq_refl) "t1" None).
Defined.

(** ** Successive invalidations *)

(** X17. Two invalidations made one after the other submit two batches,
    in that order, the second stamped with the next clock reading; their
    caller references differ whenever the clock has moved between the two
    readings. *)
Theorem successive_references_differ {Metrics} (env : Env Metrics) this
        paths1 paths2 w :
  clock env (reads w) <> clock env (S (reads w)) ->
  let w1 := after (invalidateCDNCache env this paths1) w in
  let w2 := after (invalidateCDNCache env this paths2) w1 in
  exists first second,
    invalidations (trace w2) =
    (invalidations (trace w) ++ [first; second])%list
    /\ first =
       invalidationParams (configService this "CLOUDFRONT_DISTRIBUTION_ID")
         paths1 (clock env (reads w))
    /\ second =
       invalidationParams (configService this "CLOUDFRONT_DISTRIBUTION_ID")
         paths2 (clock env (S (reads w)))
    /\ Invalidation.CallerReference (Invalidation.InvalidationBatch first) <>
       Invalidation.CallerReference (Invalidation.InvalidationBatch second).
Proof.
  intros Hmoved. cbv zeta.
  assert (Hreads : reads (after (invalidateCDNCache env this paths1) w) =
                   S (reads w)).
  { by_run invalidateCDNCache_run; reflexivity. }
  do 2 eexists. split; [| split; [reflexivity | split; [reflexivity |]]].
  - rewrite !invalidateCDNCache_submits, Hreads. unfold snoc.
    now rewrite <- app_assoc.
  - cbn [invalidationParams Invalidation.InvalidationBatch
           Invalidation.CallerReference].
    intros H. apply append_cancel_l in H.
    now apply Number_toString_inj in H.
Qed.

Lemma successive_references_differ_witness :
  map (fun r => Invalidation.CallerReference
                  (Invalidation.InvalidationBatch r))
    (invalidations
       (trace (after (invalidateCDNCache (healthy ticking_clock)
                        sample_service ["b"])
                 (after (invalidateCDNCache (healthy ticking_clock)
                           sample_service ["a"]) world0)))) =
  ["invalidation-1700000000123"; "invalidation-1700000000124"].
Proof.
  assert (H : clock (healthy ticking_clock) (reads world0) <>
              clock (healthy ticking_clock) (S (reads world0)))
    by (vm_compute; discriminate).
  destruct (successive_references_differ (healthy ticking_clock)
              sample_service ["a"] ["b"] world0 H)
    as (first & second & Hsent & -> & -> & _).
  exact (f_equal
           (map (fun r => Invalidation.CallerReference
                            (Invalidation.InvalidationBatch r))) Hsent).
Defined.

(** ** An invariant of the trace *)

Lemma Forall_snoc {A} (P : A -> Prop) l x :
  Forall P l -> P x -> Forall P (snoc l x).
Proof.
  intros Hl Hx. unfold snoc. apply Forall_app. split; [exact Hl |].
  constructor; [exact Hx | constructor].
Qed.

Lemma items_are_absolute paths :
  Forall (fun item => starts_with_slash item = true)
    (map (fun path => "/" ++ path) paths).
Proof.
  apply Forall_forall. intros item Hin. apply in_map_iff in Hin.
  destruct Hin as (path & <- & _). reflexivity.
Qed.

(** X18. Every operation keeps the trace well shaped, whatever it is
    called with and whatever the SDK answers: all puts are cached for a
    year, all signatures are one-hour "getObject" reads, and every batch
    has a quantity equal to its number of items, each of them starting
    with a slash. *)
Theorem well_shaped_kept {Metrics} (env : Env Metrics) this w :
  well_shaped (trace w) ->
  (forall file key contentType,
      well_shaped
        (trace (after (uploadAudioFile env this file key contentType) w)))
  /\ (forall trackId options,
      well_shaped
        (trace (after (generateStreamingUrl env this trackId options) w)))
  /\ (forall paths,
      well_shaped (trace (after (invalidateCDNCache env this paths) w)))
  /\ (forall trackId,
      well_shaped (trace (after (getStreamingMetrics env this trackId) w))).
Proof.
  intros (Hputs & Hsigns & Hbatches).
  destruct (operation_footprints_free env this w)
    as (Hupload & Hsign & Hinvalidate & Hmetrics).
  split; [| split; [| split]]; intros; unfold well_shaped.
  - destruct (Hupload file key contentType) as (-> & -> & _).
    rewrite uploadAudioFile_puts.
    repeat split; try assumption. now apply Forall_snoc.
  - destruct (Hsign trackId options) as (-> & -> & _).
    rewrite generateStreamingUrl_signs.
    repeat split; try assumption. apply Forall_snoc; [assumption |].
    repeat split.
  - destruct (Hinvalidate paths) as (-> & -> & _).
    rewrite invalidateCDNCache_submits.
    repeat split; try assumption. apply Forall_snoc; [assumption |].
    cbv zeta. simpl. split; [now rewrite length_map |].
    apply items_are_absolute.
  - destruct (Hmetrics trackId) as (-> & -> & -> & _).
    repeat split; assumption.
Qed.

Lemma well_shaped_kept_witness :
  well_shaped
    (trace (after (invalidateCDNCache (healthy ticking_clock) sample_service
                     ["/a"; "b"]) world0)).
Proof.
  assert (H : well_shaped (trace world0))
    by (repeat split; constructor).
  exact (proj1 (proj2 (proj2
           (well_shaped_kept (healthy ticking_clock) sample_service world0 H)))
           ["/a"; "b"]).
Defined.
